(** * amplifier-module-resolution: sources and the six-layer resolver

    A shallow embedding of [sources.py] and [resolvers.py].

    Python [str] values are modelled by Rocq strings read as UTF-8 byte
    strings, so that [str.encode()] is the identity on the bytes.  All the
    separators the code searches for are ASCII, for which searching the bytes
    and searching the code points agree. *)

From Stdlib Require Import Strings.String Strings.Ascii NArith Lia.
From stdpp Require Import base option list strings gmap.

Local Open Scope string_scope.

(** ** Python string primitives *)

Module PyStr.

(** [s[n:]] *)
Fixpoint drop (n : nat) (s : string) : string :=
  match n, s with
  | O, _ => s
  | S _, EmptyString => EmptyString
  | S k, String _ s' => drop k s'
  end.

(** [s[:n]] *)
Fixpoint take (n : nat) (s : string) : string :=
  match n, s with
  | O, _ => EmptyString
  | S _, EmptyString => EmptyString
  | S k, String c s' => String c (take k s')
  end.

(** [s.startswith(p)] *)
Definition startswith (p s : string) : bool := String.prefix p s.

(** [s.find(sep)]: index of the leftmost occurrence. *)
Fixpoint find (sep s : string) : option nat :=
  if startswith sep s then Some O
  else match s with
       | EmptyString => None
       | String _ s' => S <$> find sep s'
       end.

(** [s.rfind(sep)]: index of the rightmost occurrence. *)
Fixpoint rfind (sep s : string) : option nat :=
  match s with
  | EmptyString => if startswith sep s then Some O else None
  | String _ s' =>
      match rfind sep s' with
      | Some i => Some (S i)
      | None => if startswith sep s then Some O else None
      end
  end.

(** [sep in s] *)
Definition contains (sep s : string) : bool :=
  match find sep s with Some _ => true | None => false end.

(** [s.split(sep, 1)] *)
Definition split1 (sep s : string) : list string :=
  match find sep s with
  | Some i => [take i s; drop (i + String.length sep) s]
  | None => [s]
  end.

(** [s.rsplit(sep, 1)] *)
Definition rsplit1 (sep s : string) : list string :=
  match rfind sep s with
  | Some i => [take i s; drop (i + String.length sep) s]
  | None => [s]
  end.

(** [s.replace(old, new)] for a non-empty [old]: occurrences are replaced
    from the left and do not overlap.  [skip] counts the characters of a
    replaced occurrence that are still to be passed over. *)
Fixpoint replace_from (skip : nat) (old new s : string) : string :=
  match s with
  | EmptyString => EmptyString
  | String c s' =>
      match skip with
      | S k => replace_from k old new s'
      | O =>
          if startswith old s
          then new ++ replace_from (String.length old - 1) old new s'
          else String c (replace_from O old new s')
      end
  end.

Definition replace (old new s : string) : string := replace_from O old new s.

(** Truthiness of a [str]. *)
Definition truthy (s : string) : bool :=
  match s with EmptyString => false | _ => true end.

(** [sep.join(l)] *)
Definition join (sep : string) (l : list string) : string := String.concat sep l.

(** [s.split(sep)] for a one-character separator. *)
Fixpoint split_char (sep : ascii) (s : string) : list string :=
  match s with
  | EmptyString => [EmptyString]
  | String c s' =>
      if Ascii.eqb c sep then EmptyString :: split_char sep s'
      else match split_char sep s' with
           | w :: ws => String c w :: ws
           | [] => [String c EmptyString]
           end
  end.

End PyStr.

(** Propositional readings of "occurs", "first occurrence" and "last
    occurrence", used to state what the searches compute. *)
Definition occurs (sep s : string) : Prop :=
  ∃ a b, s = a ++ sep ++ b.

Definition splits_first (sep s a b : string) : Prop :=
  s = a ++ sep ++ b ∧
  ∀ a' b', s = a' ++ sep ++ b' → (String.length a ≤ String.length a')%nat.

Definition splits_last (sep s a b : string) : Prop :=
  s = a ++ sep ++ b ∧
  ∀ a' b', s = a' ++ sep ++ b' → (String.length a' ≤ String.length a)%nat.

(** ** [pathlib]: pure POSIX paths

    A path is its root (none, one slash, or exactly two slashes) and its
    components; empty components and single dots are dropped when a string
    is parsed, double dots are kept. *)

Inductive Root := Rel | Root1 | Root2.

Record Path := mkPath { p_root : Root; p_parts : list string }.

Global Instance Root_eq_dec : EqDecision Root.
Proof. solve_decision. Defined.

Global Instance Path_eq_dec : EqDecision Path.
Proof. solve_decision. Defined.

Module PyPath.

Definition root_of (s : string) : Root :=
  if PyStr.startswith "/" s
  then if PyStr.startswith "//" s && negb (PyStr.startswith "///" s)
       then Root2 else Root1
  else Rel.

Definition is_component (x : string) : bool :=
  negb (String.eqb x "") && negb (String.eqb x ".").

(** [Path(s)] *)
Definition of_str (s : string) : Path :=
  {| p_root := root_of s;
     p_parts := List.filter is_component (PyStr.split_char "/" s) |}.

(** [p / s]: an absolute right operand replaces the left one. *)
Definition joinpath (p : Path) (s : string) : Path :=
  let q := of_str s in
  match p_root q with
  | Rel => {| p_root := p_root p; p_parts := p_parts p ++ p_parts q |}
  | _ => q
  end.

(** [p.parent] *)
Definition parent (p : Path) : Path :=
  {| p_root := p_root p; p_parts := List.removelast (p_parts p) |}.

(** [str(p)] *)
Definition to_str (p : Path) : string :=
  match p_root p, p_parts p with
  | Rel, [] => "."
  | Rel, ps => PyStr.join "/" ps
  | Root1, ps => "/" ++ PyStr.join "/" ps
  | Root2, ps => "//" ++ PyStr.join "/" ps
  end.

End PyPath.

Notation "p </> s" := (PyPath.joinpath p s) (at level 40, left associativity).

(** ** Exceptions and results

    An exception is its class and [str()] of it. *)

Inductive exn :=
| ValueError (msg : string)
| KeyError (key : string)
| ModuleResolutionError (msg : string)
| InstallError (msg : string)
| CalledProcessError (msg : string)
| OSError (msg : string).

Inductive result (A : Type) :=
| Ok (a : A)
| Raise (e : exn).
Arguments Ok {A} a.
Arguments Raise {A} e.

(** [f"{x}"] for an optional string. *)
Definition fmt_opt (o : option string) : string :=
  match o with Some s => s | None => "None" end.

(** ** [hashlib.sha256]

    FIPS 180-4 over 32-bit words held in [N], wrap-around written out. *)

Module SHA256.
Local Open Scope N_scope.

Definition mask32 : N := 0xffffffff.
Definition add32 (x y : N) : N := N.land (x + y) mask32.
Definition rotr (n x : N) : N :=
  N.lor (N.shiftr x n) (N.land (N.shiftl x (32 - n)) mask32).
Definition not32 (x : N) : N := N.lxor x mask32.

Definition Ch (x y z : N) : N := N.lxor (N.land x y) (N.land (not32 x) z).
Definition Maj (x y z : N) : N :=
  N.lxor (N.lxor (N.land x y) (N.land x z)) (N.land y z).
Definition Sigma0 (x : N) : N := N.lxor (N.lxor (rotr 2 x) (rotr 13 x)) (rotr 22 x).
Definition Sigma1 (x : N) : N := N.lxor (N.lxor (rotr 6 x) (rotr 11 x)) (rotr 25 x).
Definition sigma0 (x : N) : N := N.lxor (N.lxor (rotr 7 x) (rotr 18 x)) (N.shiftr x 3).
Definition sigma1 (x : N) : N := N.lxor (N.lxor (rotr 17 x) (rotr 19 x)) (N.shiftr x 10).

(** The round constants of FIPS 180-4, section 4.2.2. *)
Definition K : list N :=
  [
    0x428A2F98; 0x71374491; 0xB5C0FBCF; 0xE9B5DBA5;
    0x3956C25B; 0x59F111F1; 0x923F82A4; 0xAB1C5ED5;
    0xD807AA98; 0x12835B01; 0x243185BE; 0x550C7DC3;
    0x72BE5D74; 0x80DEB1FE; 0x9BDC06A7; 0xC19BF174;
    0xE49B69C1; 0xEFBE4786; 0x0FC19DC6; 0x240CA1CC;
    0x2DE92C6F; 0x4A7484AA; 0x5CB0A9DC; 0x76F988DA;
    0x983E5152; 0xA831C66D; 0xB00327C8; 0xBF597FC7;
    0xC6E00BF3; 0xD5A79147; 0x06CA6351; 0x14292967;
    0x27B70A85; 0x2E1B2138; 0x4D2C6DFC; 0x53380D13;
    0x650A7354; 0x766A0ABB; 0x81C2C92E; 0x92722C85;
    0xA2BFE8A1; 0xA81A664B; 0xC24B8B70; 0xC76C51A3;
    0xD192E819; 0xD6990624; 0xF40E3585; 0x106AA070;
    0x19A4C116; 0x1E376C08; 0x2748774C; 0x34B0BCB5;
    0x391C0CB3; 0x4ED8AA4A; 0x5B9CCA4F; 0x682E6FF3;
    0x748F82EE; 0x78A5636F; 0x84C87814; 0x8CC70208;
    0x90BEFFFA; 0xA4506CEB; 0xBEF9A3F7; 0xC67178F2
  ].

Record state := mkState { ha : N; hb : N; hc : N; hd : N; he : N; hf : N; hg : N; hh : N }.

Definition H0 : state :=
  mkState 0x6a09e667 0xbb67ae85 0x3c6ef372 0xa54ff53a
          0x510e527f 0x9b05688c 0x1f83d9ab 0x5be0cd19.

(** Message padding: a 1 bit, zeros up to 56 mod 64 bytes, and the bit
    length as a 64-bit big-endian integer. *)
Definition be_bytes (n : nat) (x : N) : list N :=
  List.map (fun i => N.land (N.shiftr x (8 * N.of_nat i)) 0xff) (List.rev (List.seq 0 n)).

Definition pad (msg : list N) : list N :=
  let len := List.length msg in
  let zeros := ((55 + 64 - len mod 64) mod 64)%nat in
  msg ++ [0x80] ++ List.repeat 0 zeros ++ be_bytes 8 (8 * N.of_nat len).

Fixpoint words (fuel : nat) (bs : list N) : list N :=
  match fuel, bs with
  | S k, b0 :: b1 :: b2 :: b3 :: rest =>
      (N.shiftl b0 24 + N.shiftl b1 16 + N.shiftl b2 8 + b3) :: words k rest
  | _, _ => []
  end.

(** The message schedule, most recent word first. *)
Fixpoint extend (n : nat) (rw : list N) : list N :=
  match n with
  | O => rw
  | S k =>
      let w := add32 (add32 (sigma1 (List.nth 1 rw 0)) (List.nth 6 rw 0))
                     (add32 (sigma0 (List.nth 14 rw 0)) (List.nth 15 rw 0)) in
      extend k (w :: rw)
  end.

Definition schedule (block : list N) : list N :=
  List.rev (extend 48 (List.rev block)).

Definition round (s : state) (kw : N * N) : state :=
  let '(k, w) := kw in
  let t1 := add32 (add32 (add32 (hh s) (Sigma1 (he s))) (Ch (he s) (hf s) (hg s)))
                  (add32 k w) in
  let t2 := add32 (Sigma0 (ha s)) (Maj (ha s) (hb s) (hc s)) in
  mkState (add32 t1 t2) (ha s) (hb s) (hc s) (add32 (hd s) t1) (he s) (hf s) (hg s).

Definition compress (s : state) (block : list N) : state :=
  let r := List.fold_left round (List.combine K (schedule block)) s in
  mkState (add32 (ha s) (ha r)) (add32 (hb s) (hb r)) (add32 (hc s) (hc r))
          (add32 (hd s) (hd r)) (add32 (he s) (he r)) (add32 (hf s) (hf r))
          (add32 (hg s) (hg r)) (add32 (hh s) (hh r)).

Fixpoint blocks (fuel : nat) (s : state) (ws : list N) : state :=
  match fuel, ws with
  | S k, _ :: _ => blocks k (compress s (List.firstn 16 ws)) (List.skipn 16 ws)
  | _, _ => s
  end.

Definition digest (msg : list N) : state :=
  let bs := pad msg in
  let ws := words (List.length bs) bs in
  blocks (List.length ws) H0 ws.

Definition hexdigit (d : N) : ascii :=
  if d <? 10 then ascii_of_N (48 + d) else ascii_of_N (87 + d).

Definition hex8 (w : N) (k : string) : string :=
  let d i := hexdigit (N.land (N.shiftr w i) 0xf) in
  String (d 28) (String (d 24) (String (d 20) (String (d 16)
    (String (d 12) (String (d 8) (String (d 4) (String (d 0) k))))))).

Definition bytes_of (s : string) : list N :=
  List.map N_of_ascii (list_ascii_of_string s).

(** [hashlib.sha256(s.encode()).hexdigest()] *)
Definition hexdigest (s : string) : string :=
  let r := digest (bytes_of s) in
  hex8 (ha r) (hex8 (hb r) (hex8 (hc r) (hex8 (hd r)
    (hex8 (he r) (hex8 (hf r) (hex8 (hg r) (hex8 (hh r) EmptyString))))))).

End SHA256.

(** ** The platform

    What the code asks of the Python runtime and of the operating system.
    [FS] is the state of the file system; the operations are those the two
    source files call. *)

Class Platform (FS : Type) : Type := {
  (** [str.upper()] *)
  str_upper : string → string;
  (** [Path.exists()] *)
  path_exists : Path → FS → bool;
  (** [Path.is_file()] *)
  path_is_file : Path → FS → bool;
  (** [Path.glob(pattern)] *)
  path_glob : Path → string → FS → list Path;
  (** [Path.resolve()], for a path it accepts: the errors it raises for a
      NUL character in the path and for a loop of symbolic links are not
      modelled. *)
  path_resolve : Path → FS → Path;
  (** [Path.mkdir(parents=True, exist_ok=True)] *)
  path_mkdir_parents : Path → FS → result unit * FS;
  (** [subprocess.run(cmd, check=True, capture_output=True, text=True)] *)
  subprocess_run : list string → FS → result unit * FS;
}.

(** [any(it)] over an iterable of [Path] objects, which are all truthy. *)
Definition any_path (l : list Path) : bool :=
  match l with [] => false | _ :: _ => true end.

(** ** Sources *)

Record FileSource := mkFileSource { path : Path }.

Record GitSource := mkGitSource {
  url : string;
  ref : string;
  subdirectory : option string;
  cache_dir : Path;
}.

Record PackageSource := mkPackageSource { package_name : string }.

Inductive Source :=
| SFile (s : FileSource)
| SGit (s : GitSource)
| SPackage (s : PackageSource).

Global Instance FileSource_eq_dec : EqDecision FileSource.
Proof. solve_decision. Defined.
Global Instance GitSource_eq_dec : EqDecision GitSource.
Proof. solve_decision. Defined.
Global Instance PackageSource_eq_dec : EqDecision PackageSource.
Proof. solve_decision. Defined.
Global Instance Source_eq_dec : EqDecision Source.
Proof. solve_decision. Defined.

(** The state a [GitSource] is resolved in: the file system, and the record
    of the targets [_download_via_uv] has been called with. *)
Record machine (FS : Type) := mkMachine { m_fs : FS; m_fetches : list Path }.
Arguments mkMachine {FS} _ _.
Arguments m_fs {FS} _.
Arguments m_fetches {FS} _.

(** Computations that read and change the machine and may raise. *)
Definition M (FS A : Type) : Type := machine FS → result A * machine FS.

Section MachineMonad.
Context {FS : Type}.

Definition ret {A} (a : A) : M FS A := λ m, (Ok a, m).

Definition bind {A B} (k : A → M FS B) (c : M FS A) : M FS B :=
  λ m, match c m with
       | (Ok a, m') => k a m'
       | (Raise e, m') => (Raise e, m')
       end.

Definition raise {A} (e : exn) : M FS A := λ m, (Raise e, m).

(** Read the file system. *)
Definition ask {A} (f : FS → A) : M FS A := λ m, (Ok (f (m_fs m)), m).

(** Run an operation of the platform on the file system. *)
Definition sys {A} (f : FS → result A * FS) : M FS A :=
  λ m, let '(r, fs') := f (m_fs m) in (r, mkMachine fs' (m_fetches m)).

(** Record a call of the fetch collaborator. *)
Definition note_fetch (target : Path) : M FS unit :=
  λ m, (Ok tt, mkMachine (m_fs m) (m_fetches m ++ [target])).

(** [try: body  except subprocess.CalledProcessError as e: handler] *)
Definition except_CalledProcessError {A}
    (body : M FS A) (handler : string → M FS A) : M FS A :=
  λ m, match body m with
       | (Raise (CalledProcessError e), m') => handler e m'
       | r => r
       end.
End MachineMonad.

Global Instance M_ret {FS} : MRet (M FS) := @ret FS.
Global Instance M_bind {FS} : MBind (M FS) := @bind FS.

Section Sources.
Context {FS : Type} `{!Platform FS}.

(** *** [FileSource] *)

(** [FileSource.__init__] on a [str] *)
Definition FileSource_of_str (s : string) (fs : FS) : FileSource :=
  let s := if PyStr.startswith "file://" s then PyStr.drop 7 s else s in
  {| path := path_resolve (PyPath.of_str s) fs |}.

(** [FileSource.__init__] on a [Path] *)
Definition FileSource_of_path (p : Path) (fs : FS) : FileSource :=
  {| path := path_resolve p fs |}.

(** *** [GitSource] *)

(** [GitSource.__init__]; [home] is [Path.home()]. *)
Definition GitSource_init (home : Path) (u r : string) (sub : option string) : GitSource :=
  {| url := u; ref := r; subdirectory := sub;
     cache_dir := home </> ".amplifier" </> "module-cache" |}.

(** [GitSource.from_uri] *)
Definition from_uri (home : Path) (uri : string) : result GitSource :=
  if negb (PyStr.startswith "git+" uri)
  then Raise (ValueError ("Git URI must start with 'git+': " ++ uri))
  else
    let uri := PyStr.drop 4 uri in
    let split_sub :=
      if PyStr.contains "#subdirectory=" uri
      then match PyStr.split1 "#subdirectory=" uri with
           | [u; sub_part] => Ok (u, Some sub_part)
           | _ => Raise (ValueError "not enough values to unpack (expected 2, got 1)")
           end
      else Ok (uri, None) in
    match split_sub with
    | Raise e => Raise e
    | Ok (uri, sub) =>
        let '(uri, r) :=
          if PyStr.contains "@" uri
          then let parts := PyStr.rsplit1 "@" uri in
               (List.nth 0 parts "", List.nth 1 parts "")
          else (uri, "main") in
        Ok (GitSource_init home uri r sub)
    end.

(** [GitSource.__repr__] *)
Definition GitSource_repr (g : GitSource) : string :=
  let sub := match subdirectory g with
             | Some s => if PyStr.truthy s then "#" ++ s else ""
             | None => ""
             end in
  "GitSource(" ++ url g ++ "@" ++ ref g ++ sub ++ ")".

(** The [git_url] that [_download_via_uv] hands to [uv]. *)
Definition git_url (g : GitSource) : string :=
  let git_url := "git+" ++ url g ++ "@" ++ ref g in
  match subdirectory g with
  | Some s => if PyStr.truthy s then git_url ++ "#subdirectory=" ++ s else git_url
  | None => git_url
  end.

(** [GitSource._download_via_uv]; the call is recorded on entry. *)
Definition _download_via_uv (g : GitSource) (target : Path) : M FS unit :=
  note_fetch target ;;
  sys (path_mkdir_parents (PyPath.parent target)) ;;
  let cmd := ["uv"; "pip"; "install"; "--target"; PyPath.to_str target; git_url g] in
  sys (subprocess_run cmd).

(** [GitSource._is_valid_cache] *)
Definition _is_valid_cache (cache_path : Path) (fs : FS) : bool :=
  any_path (path_glob cache_path "**/*.py" fs).

(** The locals [cache_key], [cache_path] and [final_path] of
    [GitSource.resolve]. *)
Definition cache_key (g : GitSource) : string :=
  PyStr.take 12 (SHA256.hexdigest (url g ++ "@" ++ ref g)).

Definition cache_path (g : GitSource) : Path :=
  cache_dir g </> cache_key g </> ref g.

Definition final_path (g : GitSource) : Path :=
  match subdirectory g with
  | Some s => if PyStr.truthy s then cache_path g </> s else cache_path g
  | None => cache_path g
  end.

(** [GitSource.resolve] *)
Definition GitSource_resolve (g : GitSource) : M FS Path :=
  hit ← ask (λ fs : FS, path_exists (cache_path g) fs && _is_valid_cache (cache_path g) fs);
  if (hit : bool) then ret (final_path g)
  else
    except_CalledProcessError (_download_via_uv g (cache_path g))
      (λ e, raise (InstallError
         ("Failed to download " ++ url g ++ "@" ++ ref g ++ ": " ++ e))) ;;
    present ← ask (path_exists (final_path g));
    if negb (present : bool)
    then raise (InstallError
           ("Subdirectory not found after download: " ++ fmt_opt (subdirectory g)))
    else ret (final_path g).

End Sources.

(** ** The resolver *)

(** A descriptor is a string or a structured record; the fields of a record
    hold strings. *)
Inductive descriptor :=
| DStr (s : string)
| DDict (d : gmap string string).

(** Truthiness of a descriptor. *)
Definition descriptor_truthy (d : descriptor) : bool :=
  match d with
  | DStr s => PyStr.truthy s
  | DDict d => negb (bool_decide (d = ∅))
  end.

(** [StandardModuleSourceResolver]: a provider is modelled by the mapping its
    one method returns. *)
Record Resolver := mkResolver {
  workspace_dir : option Path;
  settings_provider : option (gmap string descriptor);
  collection_provider : option (gmap string string);
}.

(** What a resolution call reads: [os.environ], [Path.home()], the file
    system and [importlib.metadata] (whether [distribution(name)] finds the
    name, raising [PackageNotFoundError] otherwise; the [ValueError] that it
    raises for the empty name is not modelled). *)
Record World (FS : Type) := mkWorld {
  environ : gmap string string;
  home : Path;
  w_fs : FS;
  distribution : string → bool;
}.
Arguments mkWorld {FS} _ _ _ _.
Arguments environ {FS} _.
Arguments home {FS} _.
Arguments w_fs {FS} _.
Arguments distribution {FS} _.

(** [if x := e:] over an optional value: the value, when there is one and it
    is truthy. *)
Definition when_truthy {A} (truthy : A → bool) (o : option A) : option A :=
  match o with
  | Some a => if truthy a then Some a else None
  | None => None
  end.


Definition nl : string := String "010" EmptyString.

Inductive Layer := Env | Workspace | Settings | Collection | Profile | Package.

Global Instance Layer_eq_dec : EqDecision Layer.
Proof. solve_decision. Defined.

Definition layer_name (l : Layer) : string :=
  match l with
  | Env => "env"
  | Workspace => "workspace"
  | Settings => "settings"
  | Collection => "collection"
  | Profile => "profile"
  | Package => "package"
  end.

Definition layer_index (l : Layer) : nat :=
  match l with
  | Env => 1
  | Workspace => 2
  | Settings => 3
  | Collection => 4
  | Profile => 5
  | Package => 6
  end.

Definition layers : list Layer :=
  [Env; Workspace; Settings; Collection; Profile; Package].

Section Resolver.
Context {FS : Type} `{!Platform FS}.

(** [os.getenv(key)] *)
Definition getenv (w : World FS) (key : string) : option string :=
  environ w !! key.

(** The local [env_key] of [resolve_with_layer]. *)
Definition env_key (module_id : string) : string :=
  "AMPLIFIER_MODULE_" ++ PyStr.replace "-" "_" (str_upper module_id).

(** [_parse_source] *)
Definition _parse_source (w : World FS) (source : descriptor) (module_id : string)
    : result Source :=
  match source with
  | DDict source =>
      let source_type := source !! "type" in
      if bool_decide (source_type = Some "git") then
        match source !! "url" with
        | None => Raise (KeyError "url")
        | Some u =>
            Ok (SGit (GitSource_init (home w) u
                        (default "main" (source !! "ref"))
                        (source !! "subdirectory")))
        end
      else if bool_decide (source_type = Some "file") then
        match source !! "path" with
        | None => Raise (KeyError "path")
        | Some p => Ok (SFile (FileSource_of_str p (w_fs w)))
        end
      else if bool_decide (source_type = Some "package") then
        match source !! "name" with
        | None => Raise (KeyError "name")
        | Some n => Ok (SPackage {| package_name := n |})
        end
      else
        Raise (ValueError ("Invalid source type '" ++ fmt_opt source_type
                           ++ "' for module '" ++ module_id ++ "'"))
  | DStr source =>
      if PyStr.startswith "git+" source then
        match from_uri (home w) source with
        | Ok g => Ok (SGit g)
        | Raise e => Raise e
        end
      else if PyStr.startswith "file://" source
              || PyStr.startswith "/" source
              || PyStr.startswith "." source then
        Ok (SFile (FileSource_of_str source (w_fs w)))
      else
        Ok (SPackage {| package_name := source |})
  end.

(** [_is_empty_submodule] *)
Definition _is_empty_submodule (w : World FS) (p : Path) : bool :=
  let git_file := p </> ".git" in
  path_exists git_file (w_fs w) && path_is_file git_file (w_fs w)
  && negb (any_path (path_glob p "**/*.py" (w_fs w))).

(** [_check_workspace] *)
Definition _check_workspace (r : Resolver) (w : World FS) (module_id : string)
    : option FileSource :=
  match workspace_dir r with
  | None => None
  | Some dir =>
      let workspace_path := dir </> module_id in
      if negb (path_exists workspace_path (w_fs w)) then None
      else if _is_empty_submodule w workspace_path then None
      else if negb (any_path (path_glob workspace_path "**/*.py" (w_fs w))) then None
      else Some (FileSource_of_path workspace_path (w_fs w))
  end.

(** The message of the terminal failure of [_resolve_package]. *)
Definition not_found_message (r : Resolver) (module_id convention_name : string) : string :=
  "Module '" ++ module_id ++ "' not found" ++ nl ++ nl
  ++ "Resolution attempted:" ++ nl
  ++ "  1. Environment: AMPLIFIER_MODULE_"
       ++ PyStr.replace "-" "_" (str_upper module_id) ++ " (not set)" ++ nl
  ++ "  2. Workspace: "
       ++ match workspace_dir r with
          | Some dir => PyPath.to_str (dir </> module_id)
          | None => "N/A"
          end ++ " (not found)" ++ nl
  ++ "  3. Settings: (no entry)" ++ nl
  ++ "  4. Collections: (no registered module)" ++ nl
  ++ "  5. Profile: (no source specified)" ++ nl
  ++ "  6. Package: Tried '" ++ module_id ++ "' and '" ++ convention_name
       ++ "' (neither installed)" ++ nl ++ nl
  ++ "Suggestions:" ++ nl
  ++ "  - Add source to profile: source: git+https://..." ++ nl
  ++ "  - Add source override to settings" ++ nl
  ++ "  - Install package: uv pip install <package-name>" ++ nl
  ++ "  - Install collection with module: amplifier collection add <collection-url>".

(** [_resolve_package] *)
Definition _resolve_package (r : Resolver) (w : World FS) (module_id : string)
    : result PackageSource :=
  if distribution w module_id then Ok {| package_name := module_id |}
  else
    let convention_name := "amplifier-module-" ++ module_id in
    if distribution w convention_name then Ok {| package_name := convention_name |}
    else Raise (ModuleResolutionError (not_found_message r module_id convention_name)).

(** [(source, layer)] out of a parse that may raise. *)
Definition tagged {A} (f : A → Source) (name : string) (x : result A)
    : result (Source * string) :=
  match x with
  | Ok a => Ok (f a, name)
  | Raise e => Raise e
  end.

(** [resolve_with_layer] *)
Definition resolve_with_layer (r : Resolver) (w : World FS)
    (module_id : string) (profile_hint : option descriptor)
    : result (Source * string) :=
  (* Layer 1: environment variable *)
  match when_truthy PyStr.truthy (getenv w (env_key module_id)) with
  | Some env_value => tagged id "env" (_parse_source w (DStr env_value) module_id)
  | None =>
  (* Layer 2: workspace convention *)
  match workspace_dir r ≫= (λ _, _check_workspace r w module_id) with
  | Some workspace_source => Ok (SFile workspace_source, "workspace")
  | None =>
  (* Layer 3: settings provider *)
  match settings_provider r ≫= (λ sources, sources !! module_id) with
  | Some source => tagged id "settings" (_parse_source w source module_id)
  | None =>
  (* Layer 4: collection modules *)
  match collection_provider r ≫= (λ collection_modules, collection_modules !! module_id) with
  | Some p =>
      let module_path := PyPath.of_str p in
      Ok (SFile (FileSource_of_path module_path (w_fs w)), "collection")
  | None =>
  (* Layer 5: profile hint *)
  match when_truthy descriptor_truthy profile_hint with
  | Some profile_hint => tagged id "profile" (_parse_source w profile_hint module_id)
  | None =>
  (* Layer 6: installed package *)
  tagged SPackage "package" (_resolve_package r w module_id)
  end end end end end.

(** [resolve] *)
Definition resolve (r : Resolver) (w : World FS)
    (module_id : string) (profile_hint : option descriptor) : result Source :=
  match resolve_with_layer r w module_id profile_hint with
  | Ok (source, _layer) => Ok source
  | Raise e => Raise e
  end.

End Resolver.

(** ** The resolution order, as the specification words it

    Each layer either yields an outcome (a source, or the error of parsing
    its descriptor) or is inapplicable; the layers are tried in a fixed
    order and the first outcome is the result. *)

Section LayerSpec.
Context {FS : Type} `{!Platform FS}.

(** A workspace directory is usable when it exists, is not an empty
    submodule placeholder and holds at least one source file. *)
Definition workspace_usable (w : World FS) (p : Path) : bool :=
  path_exists p (w_fs w)
  && negb (path_exists (p </> ".git") (w_fs w)
           && path_is_file (p </> ".git") (w_fs w)
           && negb (any_path (path_glob p "**/*.py" (w_fs w))))
  && any_path (path_glob p "**/*.py" (w_fs w)).

Definition layer_attempt (l : Layer) (r : Resolver) (w : World FS)
    (module_id : string) (profile_hint : option descriptor)
    : option (result Source) :=
  match l with
  | Env =>
      match environ w !! env_key module_id with
      | Some v => if PyStr.truthy v then Some (_parse_source w (DStr v) module_id) else None
      | None => None
      end
  | Workspace =>
      match workspace_dir r with
      | Some dir =>
          if workspace_usable w (dir </> module_id)
          then Some (Ok (SFile (FileSource_of_path (dir </> module_id) (w_fs w))))
          else None
      | None => None
      end
  | Settings =>
      match settings_provider r with
      | Some sources =>
          match sources !! module_id with
          | Some d => Some (_parse_source w d module_id)
          | None => None
          end
      | None => None
      end
  | Collection =>
      match collection_provider r with
      | Some modules =>
          match modules !! module_id with
          | Some p => Some (Ok (SFile (FileSource_of_path (PyPath.of_str p) (w_fs w))))
          | None => None
          end
      | None => None
      end
  | Profile =>
      match profile_hint with
      | Some h => if descriptor_truthy h then Some (_parse_source w h module_id) else None
      | None => None
      end
  | Package =>
      if distribution w module_id
      then Some (Ok (SPackage {| package_name := module_id |}))
      else if distribution w ("amplifier-module-" ++ module_id)
      then Some (Ok (SPackage {| package_name := "amplifier-module-" ++ module_id |}))
      else None
  end.

(** No layer before [l], in the resolution order, applies. *)
Definition earlier_inapplicable (l : Layer) (r : Resolver) (w : World FS)
    (module_id : string) (profile_hint : option descriptor) : Prop :=
  ∀ l', layer_index l' < layer_index l →
        layer_attempt l' r w module_id profile_hint = None.

(** Left-to-right evaluation with a short circuit on the first outcome. *)
Fixpoint first_outcome (ls : list Layer) (r : Resolver) (w : World FS)
    (module_id : string) (profile_hint : option descriptor)
    : option (Layer * result Source) :=
  match ls with
  | [] => None
  | l :: ls' =>
      match layer_attempt l r w module_id profile_hint with
      | Some o => Some (l, o)
      | None => first_outcome ls' r w module_id profile_hint
      end
  end.

(** What [resolve_with_layer] returns for an outcome of the ordered
    search, and for none. *)
Definition outcome_result (r : Resolver) (module_id : string)
    (o : option (Layer * result Source))
    : result (Source * string) :=
  match o with
  | Some (l, x) => tagged id (layer_name l) x
  | None =>
      Raise (ModuleResolutionError
               (not_found_message r module_id ("amplifier-module-" ++ module_id)))
  end.

End LayerSpec.





Definition suggestions : string :=
  "Suggestions:" ++ nl
  ++ "  - Add source to profile: source: git+https://..." ++ nl
  ++ "  - Add source override to settings" ++ nl
  ++ "  - Install package: uv pip install <package-name>" ++ nl
  ++ "  - Install collection with module: amplifier collection add <collection-url>".

(** Every line of [ls] followed by a newline. *)
Definition unlines (ls : list string) : string :=
  List.fold_right (λ l acc, l ++ nl ++ acc) "" ls.

(** ** A small platform to run the definitions on

    The file system is the list of its entries, each a path and whether it
    is a regular file.  [uv] installs a one-file package into its target for
    an [https] repository and fails for anything else. *)

Module Demo.

Definition fs : Type := list (Path * bool).

Definition upper_ascii (c : ascii) : ascii :=
  let n := nat_of_ascii c in
  if (97 <=? n)%nat && (n <=? 122)%nat then ascii_of_nat (n - 32) else c.

Fixpoint upper (s : string) : string :=
  match s with
  | EmptyString => EmptyString
  | String c s' => String (upper_ascii c) (upper s')
  end.

Definition exists_ (p : Path) (t : fs) : bool :=
  existsb (λ e, bool_decide (e.1 = p)) t.

Definition is_file (p : Path) (t : fs) : bool :=
  existsb (λ e, bool_decide (e.1 = p) && e.2) t.

Fixpoint strictly_below (dir entry : list string) : bool :=
  match dir, entry with
  | [], _ :: _ => true
  | d :: dir', e :: entry' => String.eqb d e && strictly_below dir' entry'
  | _, _ => false
  end.

Definition named_py (entry : list string) : bool :=
  let name := List.last entry "" in
  String.eqb (PyStr.drop (String.length name - 3) name) ".py".

Definition glob (p : Path) (pattern : string) (t : fs) : list Path :=
  if String.eqb pattern "**/*.py"
  then List.filter (λ q, bool_decide (p_root q = p_root p)
                         && strictly_below (p_parts p) (p_parts q)
                         && named_py (p_parts q))
                   (List.map fst t)
  else [].

Definition mkdir_parents (p : Path) (t : fs) : result unit * fs :=
  if is_file p t then (Raise (OSError "File exists"), t)
  else if exists_ p t then (Ok tt, t)
  else (Ok tt, (t ++ [(p, false)])%list).

Definition uv (cmd : list string) (t : fs) : result unit * fs :=
  let target := PyPath.of_str (List.nth 4 cmd "") in
  if PyStr.startswith "git+https://" (List.nth 5 cmd "")
  then (Ok tt, (t ++ [(target, false); (target </> "__init__.py", true)])%list)
  else (Raise (CalledProcessError "uv returned non-zero exit status 1"), t).

Global Instance platform : Platform fs := {|
  str_upper := upper;
  path_exists := exists_;
  path_is_file := is_file;
  path_glob := glob;
  path_resolve := λ p _, p;
  path_mkdir_parents := mkdir_parents;
  subprocess_run := uv;
|}.

Definition home_dir : Path := PyPath.of_str "/home/dev".

(** An [https] repository pinned to [v1], with a subdirectory. *)
Definition repo : GitSource :=
  GitSource_init home_dir "https://h/o/r" "v1" (Some "p").

(** A cache that holds the repository but not its subdirectory. *)
Definition cached : fs :=
  [ (cache_path repo, false); (cache_path repo </> "mod.py", true) ].

(** A cache directory that exists and is empty. *)
Definition empty_cache : fs := [ (cache_path repo, false) ].

Definition world (env : gmap string string) (t : fs) (pkgs : list string) : World fs :=
  {| environ := env; home := home_dir; w_fs := t;
     distribution := λ n, bool_decide (n ∈ pkgs) |}.

Definition bare : Resolver :=
  {| workspace_dir := None; settings_provider := None; collection_provider := None |}.

(** Settings that pin the module ["foo"] to the demonstration repository. *)
Definition pinned : Resolver :=
  {| workspace_dir := None;
     settings_provider := Some {[ "foo" := DStr "git+https://h/o/r@v1#subdirectory=p" ]};
     collection_provider := None |}.

(** Settings whose record for ["foo"] has an unknown type. *)
Definition broken : Resolver :=
  {| workspace_dir := None;
     settings_provider := Some {[ "foo" := DDict {[ "type" := "svn" ]} ]};
     collection_provider := None |}.

Definition plain : World fs := world ∅ [] [].

(** The variable of ["foo-bar"] is set to the empty string and the
    conventional package is installed. *)
Definition blank_env : World fs :=
  world {[ "AMPLIFIER_MODULE_FOO_BAR" := "" ]} [] ["amplifier-module-foo-bar"].

End Demo.

(** Hexadecimal digits, as [hexdigest] writes them. *)
Definition is_hex (c : ascii) : bool :=
  let n := N_of_ascii c in
  ((48 <=? n) && (n <=? 57) || (97 <=? n) && (n <=? 102))%N.

Fixpoint all_hex (s : string) : bool :=
  match s with
  | EmptyString => true
  | String c s' => is_hex c && all_hex s'
  end.

(** ** The rest of the sources *)

(** What [FileSource.resolve] asks of the platform besides. *)
Class DirPlatform (FS : Type) `{!Platform FS} : Type := {
  (** [Path.is_dir()] *)
  path_is_dir : Path → FS → bool;
}.

(** What [importlib.metadata.distribution(name)] returns: the files of the
    distribution ([None] when they are not recorded) and where a file of it
    lies, as [str(dist.locate_file(f))]. *)
Record Distribution := mkDistribution {
  files : option (list string);
  locate_file : string → string;
}.

Section MoreSources.
Context {FS : Type} `{!Platform FS} `{!DirPlatform FS}.

(** [FileSource._is_valid_module] *)
Definition _is_valid_module (p : Path) (fs : FS) : bool :=
  any_path (path_glob p "**/*.py" fs).

(** [FileSource.resolve] *)
Definition FileSource_resolve (f : FileSource) (fs : FS) : result Path :=
  if negb (path_exists (path f) fs) then
    Raise (ModuleResolutionError ("Module path not found: " ++ PyPath.to_str (path f)))
  else if negb (path_is_dir (path f) fs) then
    Raise (ModuleResolutionError
             ("Module path is not a directory: " ++ PyPath.to_str (path f)))
  else if negb (_is_valid_module (path f) fs) then
    Raise (ModuleResolutionError
             ("Path does not contain a valid Python module: " ++ PyPath.to_str (path f)))
  else Ok (path f).

(** [GitSource.install_to]: the body of the coroutine. *)
Definition install_to (g : GitSource) (target_dir : Path) : M FS unit :=
  except_CalledProcessError (_download_via_uv g target_dir)
    (λ e, raise (InstallError
       ("Failed to install " ++ url g ++ "@" ++ ref g ++ " to "
        ++ PyPath.to_str target_dir ++ ": " ++ e))) ;;
  present ← ask (path_exists target_dir);
  if negb (present : bool)
  then raise (InstallError
         ("Target directory not created after install: " ++ PyPath.to_str target_dir))
  else ret tt.

End MoreSources.

(** [PackageSource.resolve]; [metadata name] is [None] when
    [importlib.metadata.distribution(name)] raises [PackageNotFoundError]. *)
Definition PackageSource_resolve (metadata : string → option Distribution)
    (p : PackageSource) : result Path :=
  match metadata (package_name p) with
  | Some dist =>
      match files dist with
      | Some (f :: _) => Ok (PyPath.parent (PyPath.of_str (locate_file dist f)))
      | _ => Ok (PyPath.of_str (locate_file dist ""))
      end
  | None =>
      Raise (ModuleResolutionError
               ("Package '" ++ package_name p ++ "' not installed. Install with: uv pip install "
                ++ package_name p))
  end.

(** The demonstration platform with directories, and some installed
    distributions. *)
Module DemoMore.

Definition is_dir (p : Path) (t : Demo.fs) : bool :=
  existsb (λ e, bool_decide (e.1 = p) && negb e.2) t.

Global Instance dirs : DirPlatform Demo.fs := {| path_is_dir := is_dir |}.

(** A workspace with the module ["foo"] checked out. *)
Definition workspace : Demo.fs :=
  [ (PyPath.of_str "/ws", false);
    (PyPath.of_str "/ws/foo", false);
    (PyPath.of_str "/ws/foo/__init__.py", true) ].

Definition in_workspace : Resolver :=
  {| workspace_dir := Some (PyPath.of_str "/ws");
     settings_provider := None; collection_provider := None |}.

(** Only the conventionally named package of ["foo"] is installed. *)
Definition metadata (name : string) : option Distribution :=
  if String.eqb name "amplifier-module-foo"
  then Some {| files := Some ["amplifier_module_foo/__init__.py"];
               locate_file := λ f, "/site-packages/" ++ f |}
  else None.

Definition installed : World Demo.fs :=
  Demo.world ∅ [] ["amplifier-module-foo"].

(** The cache root is a regular file: no directory can be made in it. *)
Definition blocked : Demo.fs :=
  [ (PyPath.parent (cache_path Demo.repo), true) ].

(** A repository that the demonstration [uv] cannot fetch. *)
Definition unreachable : GitSource :=
  GitSource_init Demo.home_dir "ssh://h/o/r" "v1" None.

End DemoMore.

(** The structured record that describes a git source. *)
Definition git_record (u r : string) (sub : option string) : gmap string string :=
  <["type" := "git"]>
    (<["url" := u]>
       (<["ref" := r]>
          (match sub with
           | Some t => {[ "subdirectory" := t ]}
           | None => ∅
           end))).

(** ** The terminal failure message, line by line

    What a reader of the message sees: the text cut at its newline
    characters. *)






Section MessageLines.
Context {FS : Type} `{!Platform FS}.



End MessageLines.

Module DemoLines.


End DemoLines.

Module DemoLayout.

(** A descriptor whose ref and subdirectory both begin with a slash, the
    source it parses to, and a file system that holds a module at the
    ref. *)
Definition escaping_uri : string := "git+https://h/o/r@/tmp/x#subdirectory=/etc".

Definition escaping : GitSource :=
  GitSource_init Demo.home_dir "https://h/o/r" "/tmp/x" (Some "/etc").

Definition planted : Demo.fs :=
  [ (PyPath.of_str "/tmp/x", false); (PyPath.of_str "/tmp/x/m.py", true) ].

End DemoLayout.

(** * Facts about the string primitives *)

Section StringFacts.
Local Arguments String.append !_ _ / : simpl nomatch.
Local Arguments PyStr.startswith : simpl never.
Implicit Types a b c p s sep : string.

Lemma str_app_assoc a b c : (a ++ b) ++ c = a ++ b ++ c.
Proof. induction a as [|x a IH]; simpl; [done | by rewrite IH]. Qed.

Lemma str_app_nil_r a : a ++ "" = a.
Proof. induction a as [|x a IH]; simpl; [done | by rewrite IH]. Qed.

Lemma str_length_app a b :
  String.length (a ++ b) = (String.length a + String.length b)%nat.
Proof. induction a as [|x a IH]; simpl; [done | by rewrite IH]. Qed.

(** Two decompositions with left parts of equal length coincide. *)
Lemma str_app_inj_length a a' b b' :
  a ++ b = a' ++ b' → String.length a = String.length a' → a = a' ∧ b = b'.
Proof.
  revert a'. induction a as [|x a IH]; intros [|y a'] Heq Hlen; simpl in *;
    try discriminate; [done |].
  injection Heq as -> Heq. injection Hlen as Hlen.
  destruct (IH _ Heq Hlen) as [-> ->]. done.
Qed.

Lemma str_app_inv_head a b b' : a ++ b = a ++ b' → b = b'.
Proof. intros H. by destruct (str_app_inj_length a a b b' H eq_refl). Qed.

Lemma startswith_spec p s : PyStr.startswith p s = true ↔ ∃ r, s = p ++ r.
Proof.
  unfold PyStr.startswith. revert s.
  induction p as [|x p IH]; intros s; simpl.
  - destruct s; simpl; split; eauto.
  - destruct s as [|y s]; simpl.
    + split; [done | intros [r Hr]; discriminate].
    + destruct (ascii_dec x y) as [->|Hne].
      * rewrite IH. split; intros [r Hr]; exists r; congruence.
      * split; [done | intros [r Hr]; congruence].
Qed.

Lemma startswith_app p r : PyStr.startswith p (p ++ r) = true.
Proof. apply startswith_spec. eauto. Qed.

Lemma drop_app a b : PyStr.drop (String.length a) (a ++ b) = b.
Proof. induction a as [|x a IH]; simpl; [by destruct b | done]. Qed.

Lemma take_app a b : PyStr.take (String.length a) (a ++ b) = a.
Proof. induction a as [|x a IH]; simpl; [by destruct b | by rewrite IH]. Qed.

Lemma drop_add n k s : PyStr.drop (n + k) s = PyStr.drop k (PyStr.drop n s).
Proof.
  revert s. induction n as [|n IH]; intros s; simpl; [done |].
  destruct s; simpl; [by destruct k | apply IH].
Qed.

(** *** [find]: the leftmost occurrence *)

Lemma find_Some sep s i :
  PyStr.find sep s = Some i →
  ∃ a b, s = a ++ sep ++ b ∧ String.length a = i ∧
         ∀ a' b', s = a' ++ sep ++ b' → (i ≤ String.length a')%nat.
Proof.
  revert i. induction s as [|x s IH]; intros i; simpl.
  - destruct (PyStr.startswith sep "") eqn:Hp; [|done].
    intros [= <-]. apply startswith_spec in Hp as [r Hr].
    exists "", r. repeat split; [done | intros; lia].
  - destruct (PyStr.startswith sep (String x s)) eqn:Hp.
    + intros [= <-]. apply startswith_spec in Hp as [r Hr].
      exists "", r. repeat split; [done | intros; lia].
    + destruct (PyStr.find sep s) as [j|] eqn:Hj; simpl; [|done].
      intros [= <-]. destruct (IH j eq_refl) as (a & b & -> & Hlen & Hmin).
      exists (String x a), b. repeat split; [by simpl; rewrite Hlen |].
      intros [|y a'] b' Heq; simpl in Heq.
      * rewrite Heq, startswith_app in Hp. done.
      * injection Heq as -> Heq. specialize (Hmin _ _ Heq). simpl. lia.
Qed.

Lemma find_None sep s : PyStr.find sep s = None → ¬ occurs sep s.
Proof.
  induction s as [|x s IH]; simpl.
  - destruct (PyStr.startswith sep "") eqn:Hp; [done |].
    intros _ (a & b & Heq). destruct a; [|done]. simpl in Heq.
    rewrite Heq, startswith_app in Hp. done.
  - destruct (PyStr.startswith sep (String x s)) eqn:Hp; [done |].
    destruct (PyStr.find sep s) eqn:Hj; [done |]. intros _ (a & b & Heq).
    destruct a as [|y a]; simpl in Heq.
    + rewrite Heq, startswith_app in Hp. done.
    + injection Heq as -> Heq. apply IH; [done |]. by exists a, b.
Qed.

Lemma contains_true sep s : PyStr.contains sep s = true ↔ occurs sep s.
Proof.
  unfold PyStr.contains. destruct (PyStr.find sep s) as [i|] eqn:Hf.
  - destruct (find_Some _ _ _ Hf) as (a & b & Heq & _).
    split; [intros _; by exists a, b | done].
  - split; [done | intros H; by apply find_None in Hf].
Qed.

Lemma contains_false sep s : PyStr.contains sep s = false ↔ ¬ occurs sep s.
Proof.
  rewrite <- contains_true. destruct (PyStr.contains sep s); split; done.
Qed.

(** [split(sep, 1)] cuts at the first occurrence. *)
Lemma split1_occurs sep s :
  occurs sep s →
  ∃ a b, PyStr.split1 sep s = [a; b] ∧ splits_first sep s a b.
Proof.
  intros Hocc. unfold PyStr.split1.
  destruct (PyStr.find sep s) as [i|] eqn:Hf; [|by apply find_None in Hf].
  destruct (find_Some _ _ _ Hf) as (a & b & -> & <- & Hmin).
  exists a, b. split; [|by split].
  rewrite take_app, drop_add, drop_app, drop_app. done.
Qed.

(** *** [rfind]: the rightmost occurrence *)

Lemma rfind_None sep s : PyStr.rfind sep s = None → ¬ occurs sep s.
Proof.
  induction s as [|x s IH]; simpl.
  - destruct (PyStr.startswith sep "") eqn:Hp; [done |].
    intros _ (a & b & Heq). destruct a; [|done]. simpl in Heq.
    rewrite Heq, startswith_app in Hp. done.
  - destruct (PyStr.rfind sep s) eqn:Hj; [done |].
    destruct (PyStr.startswith sep (String x s)) eqn:Hp; [done |].
    intros _ (a & b & Heq). destruct a as [|y a]; simpl in Heq.
    + rewrite Heq, startswith_app in Hp. done.
    + injection Heq as -> Heq. apply IH; [done |]. by exists a, b.
Qed.

Lemma rfind_Some sep s i :
  PyStr.rfind sep s = Some i →
  ∃ a b, s = a ++ sep ++ b ∧ String.length a = i ∧
         ∀ a' b', s = a' ++ sep ++ b' → (String.length a' ≤ i)%nat.
Proof.
  revert i. induction s as [|x s IH]; intros i; simpl.
  - destruct (PyStr.startswith sep "") eqn:Hp; [|done].
    intros [= <-]. apply startswith_spec in Hp as [r Hr].
    exists "", r. repeat split; [done |].
    intros [|y a'] b' Heq; simpl in *; [lia | done].
  - destruct (PyStr.rfind sep s) as [j|] eqn:Hj.
    + intros [= <-]. destruct (IH j eq_refl) as (a & b & -> & Hlen & Hmax).
      exists (String x a), b. repeat split; [by simpl; rewrite Hlen |].
      intros [|y a'] b' Heq; simpl in *; [lia |].
      injection Heq as -> Heq. specialize (Hmax _ _ Heq). lia.
    + destruct (PyStr.startswith sep (String x s)) eqn:Hp; [|done].
      intros [= <-]. apply startswith_spec in Hp as [r Hr].
      exists "", r. repeat split; [done |].
      intros [|y a'] b' Heq; simpl in *; [lia |].
      injection Heq as -> Heq. apply rfind_None in Hj.
      destruct Hj. by exists a', b'.
Qed.

(** [rsplit(sep, 1)] cuts at the last occurrence. *)
Lemma rsplit1_occurs sep s :
  occurs sep s →
  ∃ a b, PyStr.rsplit1 sep s = [a; b] ∧ splits_last sep s a b.
Proof.
  intros Hocc. unfold PyStr.rsplit1.
  destruct (PyStr.rfind sep s) as [i|] eqn:Hf; [|by apply rfind_None in Hf].
  destruct (rfind_Some _ _ _ Hf) as (a & b & -> & <- & Hmax).
  exists a, b. split; [|by split].
  rewrite take_app, drop_add, drop_app, drop_app. done.
Qed.

(** *** Decompositions *)

Lemma str_app_eq_app a b a' b' :
  a ++ b = a' ++ b' →
  (∃ k, a' = a ++ k ∧ b = k ++ b') ∨ (∃ k, a = a' ++ k ∧ b' = k ++ b).
Proof.
  revert a'. induction a as [|x a IH]; intros a' Heq; simpl in *.
  - left. by exists a'.
  - destruct a' as [|y a']; simpl in *.
    + right. by exists (String x a).
    + injection Heq as -> Heq.
      destruct (IH _ Heq) as [(k & -> & ->)|(k & -> & ->)]; [left | right];
        by exists k.
Qed.

Lemma splits_first_unique sep s a b a' b' :
  splits_first sep s a b → splits_first sep s a' b' → a = a' ∧ b = b'.
Proof.
  intros [-> Hmin] [Heq Hmin'].
  assert (String.length a = String.length a') as Hlen.
  { apply Nat.le_antisymm; [by eapply Hmin | by eapply Hmin']. }
  destruct (str_app_inj_length _ _ _ _ Heq Hlen) as [-> Hb].
  by apply str_app_inv_head in Hb as ->.
Qed.

Lemma splits_last_unique sep s a b a' b' :
  splits_last sep s a b → splits_last sep s a' b' → a = a' ∧ b = b'.
Proof.
  intros [-> Hmax] [Heq Hmax'].
  assert (String.length a = String.length a') as Hlen.
  { apply Nat.le_antisymm; [by eapply Hmax' | by eapply Hmax]. }
  destruct (str_app_inj_length _ _ _ _ Heq Hlen) as [-> Hb].
  by apply str_app_inv_head in Hb as ->.
Qed.

(** Before the first occurrence there is none. *)
Lemma splits_first_before sep s a b :
  sep ≠ "" → splits_first sep s a b → ¬ occurs sep a.
Proof.
  intros Hne [-> Hmin] (x & y & ->).
  specialize (Hmin x (y ++ sep ++ b)).
  rewrite !str_app_assoc in Hmin. specialize (Hmin eq_refl).
  rewrite !str_length_app in Hmin. destruct sep; [done | simpl in Hmin; lia].
Qed.

(** After the last occurrence there is none. *)
Lemma splits_last_after sep s a b :
  sep ≠ "" → splits_last sep s a b → ¬ occurs sep b.
Proof.
  intros Hne [-> Hmax] (x & y & ->).
  specialize (Hmax (a ++ sep ++ x) y).
  rewrite !str_app_assoc in Hmax. specialize (Hmax eq_refl).
  rewrite !str_length_app in Hmax. destruct sep; [done | simpl in Hmax; lia].
Qed.

(** A one-character separator followed by text without it is its last
    occurrence. *)
Lemma splits_last_char (c : ascii) u r :
  ¬ occurs (String c "") r → splits_last (String c "") (u ++ String c "" ++ r) u r.
Proof.
  intros Hr. split; [done |]. intros a' b' Heq.
  destruct (str_app_eq_app _ _ _ _ Heq) as [(k & -> & Hk)|(k & -> & Hk)].
  - destruct k as [|y k]; [rewrite str_app_nil_r; lia |].
    simpl in Hk. injection Hk as -> ->. destruct Hr. by exists k, b'.
  - rewrite str_length_app. lia.
Qed.

(** A separator whose first character does not come back in it cannot
    straddle the end of a text in which it does not occur. *)
Lemma splits_first_app (c : ascii) sep' x t :
  ¬ occurs (String c "") sep' → ¬ occurs (String c sep') x →
  splits_first (String c sep') (x ++ String c sep' ++ t) x t.
Proof.
  intros Hc Hx. split; [done |]. intros a' b' Heq.
  destruct (str_app_eq_app _ _ _ _ Heq) as [(k & -> & Hk)|(k & -> & Hk)].
  - rewrite str_length_app. lia.
  - destruct k as [|y k]; [rewrite str_app_nil_r; lia |].
    simpl in Hk. injection Hk as <- Hk. symmetry in Hk.
    destruct (str_app_eq_app _ _ _ _ Hk) as [(k2 & -> & Hk2)|(k2 & -> & Hk2)].
    + destruct k2 as [|z k2].
      * rewrite str_app_nil_r in Hx. destruct Hx. exists a', "".
        by rewrite str_app_nil_r.
      * simpl in Hk2. injection Hk2 as <- _. destruct Hc. by exists k, k2.
    + destruct Hx. exists a', k2. done.
Qed.

(** An occurrence in [x ++ c ++ t] of a separator without [c] lies in [x]
    or in [t]. *)
Lemma occurs_app_char (c : ascii) sep x t :
  ¬ occurs (String c "") sep → occurs sep (x ++ String c t) →
  occurs sep x ∨ occurs sep t.
Proof.
  intros Hc (a & b & Heq). symmetry in Heq.
  destruct (str_app_eq_app _ _ _ _ Heq) as [(k & -> & Hk)|(k & -> & Hk)].
  - destruct (str_app_eq_app _ _ _ _ Hk) as [(k2 & -> & Hk2)|(k2 & -> & Hk2)].
    + left. by exists a, k2.
    + destruct k2 as [|z k2].
      * left. exists a, "". by rewrite !str_app_nil_r.
      * simpl in Hk2. injection Hk2 as -> _. destruct Hc. by exists k, k2.
  - destruct k as [|y k]; simpl in Hk.
    + destruct sep as [|z sep]; simpl in Hk.
      * left. exists x, "". by rewrite str_app_nil_r.
      * injection Hk as -> _. destruct Hc. by exists "", sep.
    + injection Hk as -> ->. right. by exists k, b.
Qed.

End StringFacts.

(** * [GitSource.from_uri] *)

Section FromUri.
Local Arguments String.append !_ _ / : simpl nomatch.
Local Arguments PyStr.startswith : simpl never.
Local Arguments PyStr.contains : simpl never.
Local Arguments PyStr.split1 : simpl never.
Local Arguments PyStr.rsplit1 : simpl never.

Local Abbreviation sub_sep := "#subdirectory=".

(** A computed [false] of [contains] refutes an occurrence. *)
Lemma not_occurs_by_contains sep s : PyStr.contains sep s = false → ¬ occurs sep s.
Proof. apply contains_false. Qed.

Lemma from_uri_requires_prefix home s g :
  from_uri home s = Ok g → ∃ rest, s = "git+" ++ rest.
Proof.
  unfold from_uri. destruct (PyStr.startswith "git+" s) eqn:Hp; [|done].
  intros _. by apply startswith_spec.
Qed.

(** The url and ref cut out of what precedes the subdirectory part. *)
Lemma url_ref_cases body :
  ∃ u r,
    (if PyStr.contains "@" body
     then (List.nth 0 (PyStr.rsplit1 "@" body) "", List.nth 1 (PyStr.rsplit1 "@" body) "")
     else (body, "main")) = (u, r)
    ∧ ((¬ occurs "@" body ∧ u = body ∧ r = "main") ∨ splits_last "@" body u r).
Proof.
  destruct (PyStr.contains "@" body) eqn:Hat.
  - apply contains_true in Hat.
    destruct (rsplit1_occurs _ _ Hat) as (u & r & -> & Hlast).
    exists u, r. split; [done | by right].
  - apply contains_false in Hat. exists body, "main". split; [done | by left].
Qed.

Lemma from_uri_cases home rest :
  ∃ body u r sub,
    from_uri home ("git+" ++ rest) = Ok (GitSource_init home u r sub)
    ∧ ((¬ occurs sub_sep rest ∧ body = rest ∧ sub = None)
       ∨ (∃ t, splits_first sub_sep rest body t ∧ sub = Some t))
    ∧ ((¬ occurs "@" body ∧ u = body ∧ r = "main") ∨ splits_last "@" body u r).
Proof.
  unfold from_uri. rewrite startswith_app. simpl negb. cbv iota.
  change (PyStr.drop 4 ("git+" ++ rest)) with rest.
  destruct (PyStr.contains sub_sep rest) eqn:Hsub.
  - apply contains_true in Hsub.
    destruct (split1_occurs _ _ Hsub) as (body & t & -> & Hfirst).
    destruct (url_ref_cases body) as (u & r & -> & Hat).
    exists body, u, r, (Some t). split; [done |]. split; [|done].
    right. by exists t.
  - apply contains_false in Hsub.
    destruct (url_ref_cases rest) as (u & r & -> & Hat).
    exists rest, u, r, None. split; [done |]. split; [|done]. by left.
Qed.

(** Parsing the URI built from a url, a ref without ["@"] and a non-empty
    subdirectory gives them back. *)
Lemma from_uri_git_url home u r sub :
  ¬ occurs sub_sep (u ++ "@" ++ r) → ¬ occurs "@" r → sub ≠ Some "" →
  from_uri home (git_url (GitSource_init home u r sub))
  = Ok (GitSource_init home u r sub).
Proof.
  intros Hsep Hr Hsub.
  destruct (from_uri_cases home
    (match sub with
     | Some t => if PyStr.truthy t then (u ++ "@" ++ r) ++ sub_sep ++ t else u ++ "@" ++ r
     | None => u ++ "@" ++ r
     end)) as (body & u' & r' & sub' & Heq & Hs & Hat).
  assert (git_url (GitSource_init home u r sub) = "git+" ++
    match sub with
    | Some t => if PyStr.truthy t then (u ++ "@" ++ r) ++ sub_sep ++ t else u ++ "@" ++ r
    | None => u ++ "@" ++ r
    end) as ->.
  { unfold git_url. simpl. destruct sub as [t|]; [|done].
    destruct (PyStr.truthy t); [|done]. simpl. by rewrite !str_app_assoc. }
  rewrite Heq. clear Heq.
  assert (body = u ++ "@" ++ r ∧ sub' = sub) as [-> ->].
  { destruct sub as [[|c t]|]; [done | |]; simpl in Hs.
    - assert (splits_first sub_sep ((u ++ "@" ++ r) ++ sub_sep ++ String c t)
                (u ++ "@" ++ r) (String c t)) as Hf.
      { apply splits_first_app; [|done].
        by apply not_occurs_by_contains. }
      destruct Hs as [(Hno & _)|(t' & Hf' & ->)].
      + destruct Hno. by eexists _, _.
      + by destruct (splits_first_unique _ _ _ _ _ _ Hf' Hf) as [-> ->].
    - destruct Hs as [(_ & Hb & Hs)|(t' & [Hocc _] & _)]; [by subst |].
      destruct Hsep. exists body, t'. exact Hocc. }
  destruct Hat as [(Hno & _)|Hl].
  - destruct Hno. by exists u, r.
  - destruct (splits_last_unique _ _ _ _ _ _ Hl (splits_last_char "@" u r Hr))
      as [-> ->]. done.
Qed.

End FromUri.

(** C2 (as amended).  For every string beginning with ["git+"], [from_uri]
    strips the prefix and cuts at the FIRST occurrence of ["#subdirectory="]:
    the subdirectory is everything after it, and there is none when the
    separator does not occur.  What precedes is cut at the LAST ["@"] into
    url and ref, the ref being ["main"] when there is no ["@"].  In
    particular ["git+https://h/o/r@v1#subdirectory=p"] yields the url
    ["https://h/o/r"], the ref ["v1"] and the subdirectory ["p"]. *)
Theorem from_uri_first_subdirectory_last_at (home : Path) :
  (∀ rest, ∃ g body,
      from_uri home ("git+" ++ rest) = Ok g
      ∧ ((¬ occurs "#subdirectory=" rest ∧ body = rest ∧ subdirectory g = None)
         ∨ (∃ sub, splits_first "#subdirectory=" rest body sub
                   ∧ subdirectory g = Some sub))
      ∧ ((¬ occurs "@" body ∧ url g = body ∧ ref g = "main")
         ∨ splits_last "@" body (url g) (ref g)))
  ∧ from_uri home "git+https://h/o/r@v1#subdirectory=p"
    = Ok (GitSource_init home "https://h/o/r" "v1" (Some "p")).
Proof.
  split; [|reflexivity].
  intros rest. destruct (from_uri_cases home rest) as (body & u & r & sub & Hg & Hs & Hat).
  exists (GitSource_init home u r sub), body. done.
Qed.

(** C2 as stated fails: with two occurrences of ["#subdirectory="] the
    subdirectory that [from_uri] returns is what follows the first one, not
    what follows the last one. *)
Lemma from_uri_subdirectory_not_last :
  from_uri Demo.home_dir "git+u#subdirectory=a#subdirectory=b"
  = Ok (GitSource_init Demo.home_dir "u" "main" (Some "a#subdirectory=b"))
  ∧ splits_last "#subdirectory=" "u#subdirectory=a#subdirectory=b" "u#subdirectory=a" "b"
  ∧ ¬ ∃ g body sub,
        from_uri Demo.home_dir "git+u#subdirectory=a#subdirectory=b" = Ok g
        ∧ splits_last "#subdirectory=" "u#subdirectory=a#subdirectory=b" body sub
        ∧ subdirectory g = Some sub.
Proof.
  assert (splits_last "#subdirectory=" "u#subdirectory=a#subdirectory=b"
            "u#subdirectory=a" "b") as Hlast.
  { destruct (rsplit1_occurs "#subdirectory=" "u#subdirectory=a#subdirectory=b")
      as (a & b & Hcut & Hl); [by exists "u", "a#subdirectory=b" |].
    vm_compute in Hcut. by injection Hcut as <- <-. }
  split; [reflexivity |]. split; [exact Hlast |].
  intros (g & body & sub & Hg & Hl & Hsub).
  vm_compute in Hg. injection Hg as <-. simpl in Hsub. injection Hsub as <-.
  destruct (splits_last_unique _ _ _ _ _ _ Hl Hlast) as [_ Hb]. discriminate Hb.
Qed.

(** C8 (as amended).  The descriptor string that the code builds from a
    [GitSource] is the [git_url] of [_download_via_uv]; parsing a ["git+"]
    URI, building that string and parsing it again gives the first result
    back, provided the parsed subdirectory is not the empty string. *)
Theorem git_url_round_trip (home : Path) (s : string) (g : GitSource) :
  from_uri home s = Ok g →
  subdirectory g ≠ Some "" →
  from_uri home (git_url g) = Ok g.
Proof.
  intros Hg Hsub. destruct (from_uri_requires_prefix _ _ _ Hg) as [rest ->].
  destruct (from_uri_cases home rest) as (body & u & r & sub & Hg' & Hs & Hat).
  rewrite Hg' in Hg. injection Hg as <-. simpl in Hsub.
  assert (¬ occurs "#subdirectory=" body) as Hbody.
  { destruct Hs as [(Hno & -> & _)|(t & Hf & _)]; [done |].
    by eapply splits_first_before. }
  apply from_uri_git_url; [| |done].
  - destruct Hat as [(_ & -> & ->)|[-> _]]; [|done].
    intros Hocc. apply occurs_app_char in Hocc as [?|Hm]; [done | |].
    + by apply not_occurs_by_contains in Hm.
    + by apply not_occurs_by_contains.
  - destruct Hat as [(_ & _ & ->)|Hl].
    + by apply not_occurs_by_contains.
    + by eapply splits_last_after.
Qed.

Lemma git_url_round_trip_witness :
  from_uri Demo.home_dir (git_url Demo.repo) = Ok Demo.repo.
Proof.
  apply (git_url_round_trip Demo.home_dir "git+https://h/o/r@v1#subdirectory=p").
  - vm_compute. reflexivity.
  - vm_compute. discriminate.
Defined.

(** C8 as stated fails for [__repr__]: what it returns does not begin with
    ["git+"], so [from_uri] rejects it and [_parse_source] reads it as a
    package name. *)
Lemma repr_round_trip_fails :
  ∃ g, from_uri Demo.home_dir "git+https://h/o/r@v1" = Ok g
       ∧ GitSource_repr g = "GitSource(https://h/o/r@v1)"
       ∧ from_uri Demo.home_dir (GitSource_repr g) ≠ Ok g
       ∧ _parse_source (Demo.world ∅ [] []) (DStr (GitSource_repr g)) "m"
         ≠ _parse_source (Demo.world ∅ [] []) (DStr "git+https://h/o/r@v1") "m".
Proof.
  eexists. split; [vm_compute; reflexivity |].
  split; [reflexivity |]. split; vm_compute; discriminate.
Qed.


(** * Paths and cache keys *)

Section Layout.
Local Arguments PyStr.startswith : simpl never.

Lemma joinpath_empty p : p </> "" = p.
Proof. destruct p as [r ps]. unfold PyPath.joinpath. simpl. by rewrite app_nil_r. Qed.

Lemma hexdigit_is_hex x : is_hex (SHA256.hexdigit (N.land x 0xf)) = true.
Proof.
  assert (N.land x 0xf < 16)%N as Hlt.
  { change 0xf%N with (N.ones 4). rewrite N.land_ones. by apply N.mod_lt. }
  rewrite <- (N2Nat.id (N.land x 0xf)).
  assert (N.to_nat (N.land x 0xf) < 16)%nat as Hn by lia.
  revert Hn. generalize (N.to_nat (N.land x 0xf)) as n. intros n Hn.
  do 16 (destruct n as [|n]; [reflexivity |]). lia.
Qed.

Lemma all_hex_hex8 w k : all_hex (SHA256.hex8 w k) = all_hex k.
Proof. unfold SHA256.hex8. cbn [all_hex]. rewrite !hexdigit_is_hex. reflexivity. Qed.

Lemma all_hex_hexdigest s : all_hex (SHA256.hexdigest s) = true.
Proof. unfold SHA256.hexdigest. cbv zeta. rewrite !all_hex_hex8. reflexivity. Qed.

Lemma all_hex_take n s : all_hex s = true → all_hex (PyStr.take n s) = true.
Proof.
  revert s. induction n as [|n IH]; intros [|c s]; simpl; try done.
  intros [Hc Hs]%andb_prop. rewrite Hc. by apply IH.
Qed.

Lemma cache_key_length g : String.length (cache_key g) = 12%nat.
Proof. reflexivity. Qed.

Lemma cache_key_hex g : all_hex (cache_key g) = true.
Proof. apply all_hex_take, all_hex_hexdigest. Qed.

Lemma split_char_hex s : all_hex s = true → PyStr.split_char "/" s = [s].
Proof.
  induction s as [|c s IH]; cbn [all_hex PyStr.split_char]; [done |].
  intros [Hc Hs]%andb_prop. rewrite (IH Hs).
  destruct (Ascii.eqb_spec c "/") as [->|]; [by vm_compute in Hc | done].
Qed.

(** A non-empty hexadecimal name is one relative path component. *)
Lemma of_str_hex s :
  all_hex s = true → s ≠ "" → PyPath.of_str s = {| p_root := Rel; p_parts := [s] |}.
Proof.
  intros Hs Hne. unfold PyPath.of_str. rewrite (split_char_hex _ Hs).
  destruct s as [|c s]; [done |]. cbn [all_hex] in Hs. apply andb_prop in Hs as [Hc _].
  assert (PyPath.root_of (String c s) = Rel) as ->.
  { unfold PyPath.root_of, PyStr.startswith. cbn [String.prefix].
    destruct (ascii_dec "/" c) as [<-|]; [by vm_compute in Hc | done]. }
  assert (PyPath.is_component (String c s) = true) as Hcomp.
  { unfold PyPath.is_component. cbn [String.eqb].
    destruct (Ascii.eqb_spec c ".") as [->|]; [by vm_compute in Hc | done]. }
  cbn [List.filter]. by rewrite Hcomp.
Qed.

Lemma joinpath_cache_key dir g :
  dir </> cache_key g
  = {| p_root := p_root dir; p_parts := p_parts dir ++ [cache_key g] |}.
Proof.
  unfold PyPath.joinpath. rewrite (of_str_hex (cache_key g)); [done | |].
  - apply cache_key_hex.
  - intros Heq. pose proof (cache_key_length g) as Hl. by rewrite Heq in Hl.
Qed.

(** The model of [hashlib.sha256] on the empty message, on a one-block
    message and on a message whose padding takes a second block. *)
Example sha256_empty :
  SHA256.hexdigest ""
  = "e3b0c44298fc1c149afbf4c8996fb92427ae41e4649b934ca495991b7852b855".
Proof. vm_compute. reflexivity. Qed.

Example sha256_abc :
  SHA256.hexdigest "abc"
  = "ba7816bf8f01cfea414140de5dae2223b00361a396177a9cb410ff61f20015ad".
Proof. vm_compute. reflexivity. Qed.

Example sha256_two_blocks :
  SHA256.hexdigest "aaaaaaaaaaaaaaaaaaaaaaaaaaaaaaaaaaaaaaaaaaaaaaaaaaaaaaaa"
  = "b35439a4ac6f0948b6d6f9e3c6af0f5f590ce20f1bde7090ef7970686ec6738a".
Proof. vm_compute. reflexivity. Qed.

(** The cache key of the repository of [test_resolve_with_cache]. *)
Example cache_key_of_test_repository :
  cache_key (GitSource_init Demo.home_dir "https://github.com/org/repo" "main" None)
  = "7933317bcbd5".
Proof. vm_compute. reflexivity. Qed.

(** With a relative ref the cache path lies under the cache root. *)
Lemma cache_path_relative_ref g :
  PyPath.root_of (ref g) = Rel →
  cache_path g
  = {| p_root := p_root (cache_dir g);
       p_parts := p_parts (cache_dir g) ++ [cache_key g]
                  ++ p_parts (PyPath.of_str (ref g)) |}.
Proof.
  intros Hrel. unfold cache_path. rewrite joinpath_cache_key.
  unfold PyPath.joinpath at 1. cbn [PyPath.of_str p_root p_parts]. rewrite Hrel.
  by rewrite <- app_assoc.
Qed.

End Layout.

(** * [GitSource.resolve] *)

Section GitResolve.
Context {FS : Type} `{!Platform FS}.
Implicit Types (g : GitSource) (m : machine FS).

(** The cache test of [resolve]. *)
Lemma resolve_hit g m :
  path_exists (cache_path g) (m_fs m) && _is_valid_cache (cache_path g) (m_fs m) = true →
  GitSource_resolve g m = (Ok (final_path g), m).
Proof. intros Hhit. unfold GitSource_resolve, mbind, M_bind, bind, ask. by rewrite Hhit. Qed.

(** What [_download_via_uv] leaves in the record of fetches. *)
Lemma download_fetches g target m :
  m_fetches (_download_via_uv g target m).2 = (m_fetches m ++ [target])%list.
Proof.
  unfold _download_via_uv, mbind, M_bind, bind, note_fetch, sys. simpl.
  destruct (path_mkdir_parents _ _) as [[[]|e] fs1]; simpl; [|done].
  destruct (subprocess_run _ _) as [[[]|e] fs2]; done.
Qed.

Lemma resolve_miss_fetches g m :
  path_exists (cache_path g) (m_fs m) && _is_valid_cache (cache_path g) (m_fs m) = false →
  m_fetches (GitSource_resolve g m).2 = (m_fetches m ++ [cache_path g])%list.
Proof.
  intros Hmiss. pose proof (download_fetches g (cache_path g) m) as Hd.
  unfold GitSource_resolve, mbind, M_bind, bind, ask, except_CalledProcessError, raise, ret.
  rewrite Hmiss.
  destruct (_download_via_uv g (cache_path g) m) as [[[]|e] m1]; simpl in *.
  - destruct (path_exists (final_path g) (m_fs m1)); done.
  - destruct e; done.
Qed.

(** A result of [resolve] is [final_path]. *)
Lemma resolve_Ok g m p : (GitSource_resolve g m).1 = Ok p → p = final_path g.
Proof.
  unfold GitSource_resolve, mbind, M_bind, bind, ask, except_CalledProcessError, raise, ret.
  destruct (path_exists (cache_path g) (m_fs m) && _ ); simpl; [congruence |].
  destruct (_download_via_uv g (cache_path g) m) as [[[]|e] m1]; simpl.
  - destruct (path_exists (final_path g) (m_fs m1)); simpl; congruence.
  - destruct e; done.
Qed.

End GitResolve.

(** C3.  [resolve] calls the fetch collaborator exactly when the cache path
    is missing or has no source file beneath it.  With a populated cache it
    makes no call and leaves the machine as it is; a cache directory that
    exists and is empty is a miss, which makes exactly one call, for the
    cache path, and what [resolve] then returns is decided by the download
    and the check after it. *)
Theorem resolve_fetches_on_miss_only {FS : Type} `{!Platform FS}
    (g : GitSource) (m : machine FS) :
  m_fetches (GitSource_resolve g m).2
  = (m_fetches m ++
     if path_exists (cache_path g) (m_fs m)
        && any_path (path_glob (cache_path g) "**/*.py" (m_fs m))
     then [] else [cache_path g])%list
  ∧ (path_exists (cache_path g) (m_fs m) = true →
     path_glob (cache_path g) "**/*.py" (m_fs m) ≠ [] →
     GitSource_resolve g m = (Ok (final_path g), m))
  ∧ (path_exists (cache_path g) (m_fs m) = true →
     path_glob (cache_path g) "**/*.py" (m_fs m) = [] →
     m_fetches (GitSource_resolve g m).2 = (m_fetches m ++ [cache_path g])%list
     ∧ GitSource_resolve g m
       = match _download_via_uv g (cache_path g) m with
         | (Ok _, m') =>
             if path_exists (final_path g) (m_fs m')
             then (Ok (final_path g), m')
             else (Raise (InstallError ("Subdirectory not found after download: "
                                        ++ fmt_opt (subdirectory g))), m')
         | (Raise (CalledProcessError e), m') =>
             (Raise (InstallError ("Failed to download " ++ url g ++ "@" ++ ref g
                                   ++ ": " ++ e)), m')
         | (Raise e, m') => (Raise e, m')
         end).
Proof.
  split; [|split].
  - destruct (path_exists (cache_path g) (m_fs m)
              && any_path (path_glob (cache_path g) "**/*.py" (m_fs m))) eqn:Hhit.
    + rewrite (resolve_hit g m Hhit). simpl. by rewrite app_nil_r.
    + by apply resolve_miss_fetches.
  - intros Hex Hglob. apply resolve_hit. unfold _is_valid_cache. rewrite Hex.
    by destruct (path_glob _ _ _).
  - intros Hex Hglob.
    assert (path_exists (cache_path g) (m_fs m) && _is_valid_cache (cache_path g) (m_fs m)
            = false) as Hmiss.
    { unfold _is_valid_cache. by rewrite Hex, Hglob. }
    split; [by apply resolve_miss_fetches |].
    unfold GitSource_resolve, mbind, M_bind, bind, ask, except_CalledProcessError, raise, ret.
    rewrite Hmiss.
    destruct (_download_via_uv g (cache_path g) m) as [[[]|e] m1]; simpl.
    + by destruct (path_exists (final_path g) (m_fs m1)).
    + by destruct e.
Qed.

(** On the demonstration platform: a populated cache makes no fetch call,
    an empty cache directory makes one. *)
Lemma resolve_fetches_on_miss_only_witness :
  GitSource_resolve Demo.repo (mkMachine Demo.cached [])
  = (Ok (final_path Demo.repo), mkMachine Demo.cached [])
  ∧ m_fetches (GitSource_resolve Demo.repo (mkMachine Demo.empty_cache [])).2
    = [cache_path Demo.repo].
Proof.
  split.
  - apply (resolve_fetches_on_miss_only Demo.repo (mkMachine Demo.cached [])).
    + vm_compute. reflexivity.
    + vm_compute. discriminate.
  - apply (resolve_fetches_on_miss_only Demo.repo (mkMachine Demo.empty_cache [])).
    + vm_compute. reflexivity.
    + vm_compute. reflexivity.
Defined.

Section LayoutMore.

(** Joining a relative text appends its components; any other text
    replaces the path. *)
Lemma joinpath_relative p s :
  PyPath.root_of s = Rel →
  p </> s = {| p_root := p_root p; p_parts := p_parts p ++ p_parts (PyPath.of_str s) |}.
Proof. intros Hrel. unfold PyPath.joinpath. cbn [PyPath.of_str p_root p_parts]. by rewrite Hrel. Qed.

Lemma joinpath_absolute p s :
  PyPath.root_of s ≠ Rel → p </> s = PyPath.of_str s.
Proof.
  intros Habs. unfold PyPath.joinpath. cbn [PyPath.of_str p_root p_parts].
  by destruct (PyPath.root_of s).
Qed.

End LayoutMore.

(** C7.  The cache key, the first 12 characters of the SHA-256 digest of
    [url@ref], has 12 characters, all hexadecimal.  For a ref that does not
    begin with a slash the cache path has the root of the cache root and
    its components, then the key, then the components of the ref; a ref
    that begins with a slash is itself the cache path.  A path that
    [resolve] returns is the cache path when no subdirectory is set;
    for a subdirectory that does not begin with a slash it is the cache
    path followed by the components of the subdirectory; a subdirectory
    that begins with a slash is itself the path returned. *)
Theorem resolve_path_layout {FS : Type} `{!Platform FS}
    (g : GitSource) (m : machine FS) (p : Path) :
  (GitSource_resolve g m).1 = Ok p →
  String.length (PyStr.take 12 (SHA256.hexdigest (url g ++ "@" ++ ref g))) = 12%nat
  ∧ all_hex (PyStr.take 12 (SHA256.hexdigest (url g ++ "@" ++ ref g))) = true
  ∧ (PyPath.root_of (ref g) = Rel →
     cache_path g
     = {| p_root := p_root (cache_dir g);
          p_parts := p_parts (cache_dir g)
                     ++ [PyStr.take 12 (SHA256.hexdigest (url g ++ "@" ++ ref g))]
                     ++ p_parts (PyPath.of_str (ref g)) |})
  ∧ (PyPath.root_of (ref g) ≠ Rel → cache_path g = PyPath.of_str (ref g))
  ∧ (subdirectory g = None → p = cache_path g)
  ∧ (∀ sub, subdirectory g = Some sub → PyPath.root_of sub = Rel →
       p = {| p_root := p_root (cache_path g);
              p_parts := p_parts (cache_path g) ++ p_parts (PyPath.of_str sub) |})
  ∧ (∀ sub, subdirectory g = Some sub → PyPath.root_of sub ≠ Rel →
       p = PyPath.of_str sub).
Proof.
  intros Hp. apply resolve_Ok in Hp. subst p.
  split; [apply cache_key_length |]. split; [apply cache_key_hex |].
  split; [apply cache_path_relative_ref |].
  split; [intros Habs; unfold cache_path; by apply joinpath_absolute |].
  unfold final_path. split; [by intros -> |]. split.
  - intros sub -> Hrel. destruct sub as [|c sub]; cbn [PyStr.truthy].
    + destruct (cache_path g) as [rt ps]. cbn. by rewrite app_nil_r.
    + by apply joinpath_relative.
  - intros sub -> Habs. destruct sub as [|c sub]; [done |]. cbn [PyStr.truthy].
    by apply joinpath_absolute.
Qed.

(** The demonstration repository, pinned to [v1] with subdirectory [p]:
    the path returned from a populated cache. *)
Lemma resolve_path_layout_witness :
  (GitSource_resolve Demo.repo (mkMachine Demo.cached [])).1
  = Ok (PyPath.of_str "/home/dev/.amplifier/module-cache/83446eb1387b/v1/p").
Proof.
  destruct (GitSource_resolve Demo.repo (mkMachine Demo.cached [])).1 as [p|e] eqn:Hres;
    [|by vm_compute in Hres].
  destruct (resolve_path_layout Demo.repo (mkMachine Demo.cached []) p Hres)
    as (_ & _ & Hcache & _ & _ & Hsub & _).
  rewrite (Hsub "p" eq_refl eq_refl), (Hcache eq_refl). vm_compute. reflexivity.
Defined.

(** A descriptor with ref [/tmp/x] and subdirectory [/etc]: the cache path
    is [/tmp/x], outside the cache root, and a cache hit returns [/etc]. *)
Lemma absolute_ref_leaves_cache_root :
  from_uri Demo.home_dir DemoLayout.escaping_uri = Ok DemoLayout.escaping
  ∧ PyPath.to_str (cache_dir DemoLayout.escaping) = "/home/dev/.amplifier/module-cache"
  ∧ cache_key DemoLayout.escaping = "dad47a75f556"
  ∧ PyPath.to_str (cache_path DemoLayout.escaping) = "/tmp/x"
  ∧ GitSource_resolve DemoLayout.escaping (mkMachine DemoLayout.planted [])
    = (Ok (PyPath.of_str "/etc"), mkMachine DemoLayout.planted [])
  ∧ cache_path DemoLayout.escaping
    ≠ cache_dir DemoLayout.escaping </> cache_key DemoLayout.escaping </> "tmp" </> "x".
Proof.
  repeat split; try (vm_compute; reflexivity).
  vm_compute. discriminate.
Qed.

(** C9.  With a subdirectory set and a cache path that exists and holds a
    source file, [resolve] returns the cache path joined with the
    subdirectory, makes no fetch call and changes nothing, whether or not
    the returned path exists; the error for a subdirectory that is not
    found is raised only after a cache miss. *)
Theorem resolve_hit_skips_subdirectory_check {FS : Type} `{!Platform FS}
    (g : GitSource) (m : machine FS) (sub : string) :
  subdirectory g = Some sub →
  path_exists (cache_path g) (m_fs m) = true →
  _is_valid_cache (cache_path g) (m_fs m) = true →
  GitSource_resolve g m = (Ok (cache_path g </> sub), m)
  ∧ ∀ (g' : GitSource) (m' : machine FS) (what : string),
      (GitSource_resolve g' m').1
      = Raise (InstallError ("Subdirectory not found after download: " ++ what)) →
      path_exists (cache_path g') (m_fs m') && _is_valid_cache (cache_path g') (m_fs m')
      = false.
Proof.
  intros Hsub Hex Hvalid. split.
  - rewrite resolve_hit by (by rewrite Hex, Hvalid).
    unfold final_path. rewrite Hsub. destruct sub; [|done].
    by rewrite joinpath_empty.
  - intros g' m' what Herr.
    destruct (path_exists (cache_path g') (m_fs m')
              && _is_valid_cache (cache_path g') (m_fs m')) eqn:Hhit; [|done].
    by rewrite (resolve_hit g' m' Hhit) in Herr.
Qed.

(** On the demonstration platform the cache holds the repository without
    its subdirectory: the hit returns a path that does not exist. *)
Lemma resolve_hit_skips_subdirectory_check_witness :
  GitSource_resolve Demo.repo (mkMachine Demo.cached [])
  = (Ok (cache_path Demo.repo </> "p"), mkMachine Demo.cached [])
  ∧ path_exists (cache_path Demo.repo </> "p") Demo.cached = false.
Proof.
  split.
  - apply (resolve_hit_skips_subdirectory_check Demo.repo (mkMachine Demo.cached []) "p").
    + reflexivity.
    + vm_compute. reflexivity.
    + vm_compute. reflexivity.
  - vm_compute. reflexivity.
Defined.

(** * The resolver *)

Section ResolverFacts.
Context {FS : Type} `{!Platform FS}.
Implicit Types (r : Resolver) (w : World FS) (l : Layer)
  (module_id : string) (profile_hint : option descriptor).

Lemma check_workspace_usable r w module_id dir :
  workspace_dir r = Some dir →
  _check_workspace r w module_id
  = if workspace_usable w (dir </> module_id)
    then Some (FileSource_of_path (dir </> module_id) (w_fs w)) else None.
Proof.
  intros Hdir. unfold _check_workspace, workspace_usable, _is_empty_submodule.
  rewrite Hdir.
  destruct (path_exists (dir </> module_id) (w_fs w)); [|done]. simpl.
  destruct (path_exists _ _ && path_is_file _ _ && negb _); [done |]. simpl.
  by destruct (any_path _).
Qed.

(** The code is the left-to-right search over the six layers. *)
Lemma resolve_with_layer_first_outcome r w module_id profile_hint :
  resolve_with_layer r w module_id profile_hint
  = outcome_result r module_id (first_outcome layers r w module_id profile_hint).
Proof.
  unfold resolve_with_layer, layers, first_outcome, layer_attempt, getenv,
    when_truthy, outcome_result.
  destruct (environ w !! env_key module_id) as [v|]; [destruct (PyStr.truthy v); [done |] |].
  all: destruct (workspace_dir r) as [dir|] eqn:Hdir; simpl;
    [rewrite (check_workspace_usable _ _ _ _ Hdir);
     destruct (workspace_usable w (dir </> module_id)); [done |] |].
  all: destruct (settings_provider r) as [sources|]; simpl;
    [destruct (sources !! module_id); [done |] |].
  all: destruct (collection_provider r) as [modules|]; simpl;
    [destruct (modules !! module_id); [done |] |].
  all: destruct profile_hint as [h|]; [destruct (descriptor_truthy h); [done |] |].
  all: unfold _resolve_package; destruct (distribution w module_id); [done |].
  all: by destruct (distribution w _).
Qed.

Lemma first_outcome_earlier l r w module_id profile_hint o :
  earlier_inapplicable l r w module_id profile_hint →
  layer_attempt l r w module_id profile_hint = Some o →
  first_outcome layers r w module_id profile_hint = Some (l, o).
Proof.
  intros Hearlier Hl. unfold layers.
  assert (∀ ls l', layer_index l' < layer_index l →
            first_outcome (l' :: ls) r w module_id profile_hint
            = first_outcome ls r w module_id profile_hint) as Hskip.
  { intros ls l' Hlt. cbn [first_outcome]. by rewrite (Hearlier l' Hlt). }
  assert (∀ ls, first_outcome (l :: ls) r w module_id profile_hint = Some (l, o))
    as Hhere.
  { intros ls. cbn [first_outcome]. by rewrite Hl. }
  destruct l; repeat (first [apply Hhere | rewrite Hskip by (simpl; lia)]).
Qed.


End ResolverFacts.

(** C1.  The six layers are tried in the order env, workspace, settings,
    collection, profile, package, and the first one that applies decides:
    when no layer before [l] applies and [l] yields the source [src],
    [resolve_with_layer] returns [src] with the name of [l], whatever the
    later layers hold, and never the name of a later layer. *)
Theorem first_applicable_layer_wins {FS : Type} `{!Platform FS}
    (r : Resolver) (w : World FS) (module_id : string)
    (profile_hint : option descriptor) (l : Layer) (src : Source) :
  earlier_inapplicable l r w module_id profile_hint →
  layer_attempt l r w module_id profile_hint = Some (Ok src) →
  resolve_with_layer r w module_id profile_hint = Ok (src, layer_name l)
  ∧ resolve r w module_id profile_hint = Ok src
  ∧ ∀ l2 src2, layer_index l < layer_index l2 →
      resolve_with_layer r w module_id profile_hint ≠ Ok (src2, layer_name l2).
Proof.
  intros Hearlier Hl.
  assert (resolve_with_layer r w module_id profile_hint = Ok (src, layer_name l)) as Hres.
  { rewrite resolve_with_layer_first_outcome.
    by rewrite (first_outcome_earlier l r w module_id profile_hint (Ok src)). }
  split; [done |]. split; [unfold resolve; by rewrite Hres |].
  intros l2 src2 Hlt. rewrite Hres. intros [= _ Hname].
  destruct l, l2; simpl in Hlt; try lia; discriminate.
Qed.


(** C6.  In a structured record a missing required field makes the parse
    fail: [url] for git, [path] for file, [name] for package.  An absent
    [ref] of a git record is ["main"]; a present one is kept. *)
Theorem record_required_fields {FS : Type} `{!Platform FS}
    (w : World FS) (d : gmap string string) (module_id : string) :
  (d !! "type" = Some "git" → d !! "url" = None →
     _parse_source w (DDict d) module_id = Raise (KeyError "url"))
  ∧ (d !! "type" = Some "file" → d !! "path" = None →
     _parse_source w (DDict d) module_id = Raise (KeyError "path"))
  ∧ (d !! "type" = Some "package" → d !! "name" = None →
     _parse_source w (DDict d) module_id = Raise (KeyError "name"))
  ∧ (d !! "type" = Some "git" → ∀ u, d !! "url" = Some u →
     ∃ g, _parse_source w (DDict d) module_id = Ok (SGit g)
          ∧ url g = u
          ∧ ref g = match d !! "ref" with Some x => x | None => "main" end
          ∧ subdirectory g = d !! "subdirectory").
Proof.
  unfold _parse_source. repeat split.
  - intros -> ->. done.
  - intros -> ->. done.
  - intros -> ->. done.
  - intros -> u ->. eexists. split; [done |]. simpl. by destruct (d !! "ref").
Qed.

(** C5.  Layers that do not apply are passed over without an error: when
    no layer before [l] applies, the result is that of the search from [l]
    on.  When [l] applies and parsing its descriptor fails, the error is the
    result of the resolution, whatever the later layers hold. *)
Theorem parse_error_propagates {FS : Type} `{!Platform FS}
    (r : Resolver) (w : World FS) (module_id : string)
    (profile_hint : option descriptor) (l : Layer) :
  earlier_inapplicable l r w module_id profile_hint →
  resolve_with_layer r w module_id profile_hint
  = outcome_result r module_id
      (first_outcome (List.skipn (layer_index l - 1) layers) r w module_id profile_hint)
  ∧ ∀ e, layer_attempt l r w module_id profile_hint = Some (Raise e) →
         resolve_with_layer r w module_id profile_hint = Raise e
         ∧ resolve r w module_id profile_hint = Raise e.
Proof.
  intros Hearlier. split.
  - rewrite resolve_with_layer_first_outcome. f_equal. unfold layers.
    destruct l; cbn [layer_index Nat.sub List.skipn]; try reflexivity;
      cbn [first_outcome]; rewrite !Hearlier by (cbn [layer_index]; lia);
      reflexivity.
  - intros e Hl.
    assert (resolve_with_layer r w module_id profile_hint = Raise e) as Hres.
    { rewrite resolve_with_layer_first_outcome.
      by rewrite (first_outcome_earlier l r w module_id profile_hint (Raise e)). }
    split; [done |]. unfold resolve. by rewrite Hres.
Qed.

(** * The terminal failure message, line by line *)

Section SplitLines.
Local Arguments String.append !_ _ / : simpl nomatch.
Local Arguments PyStr.startswith : simpl never.

Lemma occurs_char_cons (a c : ascii) (t : string) :
  occurs (String a "") (String c t) → c = a ∨ occurs (String a "") t.
Proof.
  intros (x & y & Heq). destruct x as [|c' x]; simpl in Heq.
  - injection Heq as -> _. by left.
  - injection Heq as -> ->. right. by exists x, y.
Qed.

Lemma startswith_char (a c : ascii) (t : string) :
  PyStr.startswith (String a "") (String c t) = bool_decide (a = c).
Proof.
  unfold PyStr.startswith. cbn [String.prefix].
  destruct (ascii_dec a c) as [->|Hne].
  - rewrite bool_decide_eq_true_2 by done. by destruct t.
  - by rewrite bool_decide_eq_false_2.
Qed.

(** Replacing one character by another leaves none of the first and keeps
    the length. *)
Lemma replace_char_spec (a b : ascii) (s : string) :
  a ≠ b →
  ¬ occurs (String a "") (PyStr.replace (String a "") (String b "") s)
  ∧ String.length (PyStr.replace (String a "") (String b "") s) = String.length s.
Proof.
  intros Hab. unfold PyStr.replace. induction s as [|c s [IHo IHl]].
  - split; [|done]. intros (x & y & Heq). by destruct x.
  - cbn [PyStr.replace_from]. rewrite startswith_char.
    change (String.length (String a "") - 1)%nat with 0%nat.
    case_bool_decide as Hc.
    + subst c. simpl. split; [|by rewrite IHl].
      intros [?|?]%occurs_char_cons; [by subst | done].
    + simpl. split; [|by rewrite IHl].
      intros [?|?]%occurs_char_cons; [by subst | done].
Qed.









End SplitLines.

Section MessageFacts.
Context {FS : Type} `{!Platform FS}.




End MessageFacts.


(** Settings and a profile hint both name a source: settings come first. *)
Lemma first_applicable_layer_wins_witness :
  resolve_with_layer Demo.pinned Demo.plain "foo" (Some (DStr "some-package"))
  = Ok (SGit Demo.repo, "settings").
Proof.
  apply (first_applicable_layer_wins Demo.pinned Demo.plain "foo"
           (Some (DStr "some-package")) Settings (SGit Demo.repo)).
  - intros l' Hlt. destruct l'; cbn [layer_index] in Hlt; try lia; vm_compute; reflexivity.
  - vm_compute. reflexivity.
Defined.


Lemma record_required_fields_witness :
  _parse_source Demo.plain (DDict {[ "type" := "git" ]}) "foo" = Raise (KeyError "url").
Proof.
  apply (record_required_fields Demo.plain {[ "type" := "git" ]} "foo").
  - vm_compute. reflexivity.
  - vm_compute. reflexivity.
Defined.

(** A record of unknown type in the settings fails the resolution although
    a profile hint is there. *)
Lemma parse_error_propagates_witness :
  resolve Demo.broken Demo.plain "foo" (Some (DStr "some-package"))
  = Raise (ValueError "Invalid source type 'svn' for module 'foo'").
Proof.
  apply (parse_error_propagates Demo.broken Demo.plain "foo"
           (Some (DStr "some-package")) Settings).
  - intros l' Hlt. destruct l'; cbn [layer_index] in Hlt; try lia; vm_compute; reflexivity.
  - vm_compute. reflexivity.
Defined.



Example resolve_foo_message :
  resolve Demo.bare Demo.plain "foo" None
  = Raise (ModuleResolutionError
      ("Module 'foo' not found" ++ nl ++ nl
       ++ "Resolution attempted:" ++ nl
       ++ "  1. Environment: AMPLIFIER_MODULE_FOO (not set)" ++ nl
       ++ "  2. Workspace: N/A (not found)" ++ nl
       ++ "  3. Settings: (no entry)" ++ nl
       ++ "  4. Collections: (no registered module)" ++ nl
       ++ "  5. Profile: (no source specified)" ++ nl
       ++ "  6. Package: Tried 'foo' and 'amplifier-module-foo' (neither installed)"
       ++ nl ++ nl ++ suggestions)).
Proof. vm_compute. reflexivity. Qed.

(** * More about [from_uri] and [_parse_source] *)

Section MoreParsing.
Local Arguments String.append !_ _ / : simpl nomatch.
Local Arguments PyStr.startswith : simpl never.
Local Arguments PyStr.contains : simpl never.

Lemma occurs_app_l (sep a b : string) : occurs sep a → occurs sep (a ++ b).
Proof.
  intros (x & y & ->). exists x, (y ++ b). by rewrite !str_app_assoc.
Qed.

Lemma occurs_app_r (sep a b : string) : occurs sep b → occurs sep (a ++ b).
Proof.
  intros (x & y & ->). exists (a ++ x), y. by rewrite !str_app_assoc.
Qed.

Lemma from_uri_without_prefix home s :
  PyStr.startswith "git+" s = false →
  from_uri home s = Raise (ValueError ("Git URI must start with 'git+': " ++ s)).
Proof. intros Hp. unfold from_uri. by rewrite Hp. Qed.

(** A string parses to a git source exactly through [from_uri], which then
    succeeds. *)
Lemma parse_source_str (FS : Type) `{!Platform FS} (w : World FS) s module_id :
  _parse_source w (DStr s) module_id
  = if PyStr.startswith "git+" s
    then match from_uri (home w) s with Ok g => Ok (SGit g) | Raise e => Raise e end
    else if PyStr.startswith "file://" s || PyStr.startswith "/" s
            || PyStr.startswith "." s
    then Ok (SFile (FileSource_of_str s (w_fs w)))
    else Ok (SPackage {| package_name := s |}).
Proof. reflexivity. Qed.

End MoreParsing.


(** X2.  What [from_uri] returns is clean: the ref holds no ["@"], neither
    the url nor the ref holds ["#subdirectory="], the URI begins with
    ["git+"] followed by the url, and the cache root is
    [~/.amplifier/module-cache]. *)
Theorem from_uri_fields_separated (home : Path) (s : string) (g : GitSource) :
  from_uri home s = Ok g →
  ¬ occurs "@" (ref g)
  ∧ ¬ occurs "#subdirectory=" (url g)
  ∧ ¬ occurs "#subdirectory=" (ref g)
  ∧ PyStr.startswith ("git+" ++ url g) s = true
  ∧ cache_dir g = home </> ".amplifier" </> "module-cache".
Proof.
  intros Hg. destruct (from_uri_requires_prefix _ _ _ Hg) as [rest ->].
  destruct (from_uri_cases home rest) as (body & u & r & sub & Hg' & Hs & Hat).
  rewrite Hg' in Hg. injection Hg as <-. cbn [ref url cache_dir GitSource_init].
  assert (¬ occurs "#subdirectory=" body ∧ ∃ tail, rest = body ++ tail) as [Hbody [tail ->]].
  { destruct Hs as [(Hno & -> & _)|(t & Hf & _)].
    - split; [done |]. exists "". by rewrite str_app_nil_r.
    - split; [by eapply splits_first_before |]. destruct Hf as [-> _]. by eexists. }
  destruct Hat as [(Hno & -> & ->)|Hl].
  - split; [by apply not_occurs_by_contains |]. split; [done |].
    split; [by apply not_occurs_by_contains |]. split; [|done].
    apply startswith_spec. exists tail. by rewrite !str_app_assoc.
  - assert (¬ occurs "@" r) as Hr by (by eapply splits_last_after).
    destruct Hl as [-> _]. split; [done |].
    split; [intros Hocc; apply Hbody; by apply occurs_app_l |].
    split; [intros Hocc; apply Hbody; by do 2 apply occurs_app_r |].
    split; [|done].
    apply startswith_spec. exists ("@" ++ r ++ tail). by rewrite !str_app_assoc.
Qed.

Lemma from_uri_fields_separated_witness :
  ¬ occurs "@" (ref Demo.repo) ∧ ¬ occurs "#subdirectory=" (url Demo.repo)
  ∧ ¬ occurs "#subdirectory=" (ref Demo.repo)
  ∧ PyStr.startswith ("git+" ++ url Demo.repo) "git+https://h/o/r@v1#subdirectory=p" = true
  ∧ cache_dir Demo.repo = Demo.home_dir </> ".amplifier" </> "module-cache".
Proof.
  apply (from_uri_fields_separated Demo.home_dir "git+https://h/o/r@v1#subdirectory=p").
  vm_compute. reflexivity.
Defined.

(** X3.  Rebuilding the URI: when the parsed ref is not ["main"] and the
    parsed subdirectory is not the empty string, the [git_url] of the
    result is the URI that was parsed, character for character. *)
Theorem git_url_of_parsed_uri (home : Path) (s : string) (g : GitSource) :
  from_uri home s = Ok g →
  ref g ≠ "main" →
  subdirectory g ≠ Some "" →
  git_url g = s.
Proof.
  intros Hg Href Hsub. destruct (from_uri_requires_prefix _ _ _ Hg) as [rest ->].
  destruct (from_uri_cases home rest) as (body & u & r & sub & Hg' & Hs & Hat).
  rewrite Hg' in Hg. injection Hg as <-. cbn [ref subdirectory GitSource_init] in *.
  destruct Hat as [(_ & _ & ->)|[-> _]]; [done |].
  unfold git_url. cbn [url ref subdirectory GitSource_init].
  destruct Hs as [(_ & <- & ->)|(t & [-> _] & ->)]; [done |].
  destruct t as [|c t]; [done |]. cbn [PyStr.truthy]. by rewrite !str_app_assoc.
Qed.

Lemma git_url_of_parsed_uri_witness :
  git_url Demo.repo = "git+https://h/o/r@v1#subdirectory=p".
Proof.
  apply (git_url_of_parsed_uri Demo.home_dir).
  - vm_compute. reflexivity.
  - vm_compute. discriminate.
  - vm_compute. discriminate.
Defined.

(** X4.  No [GitSource] is read back from its [__repr__]: [from_uri]
    refuses it, and [_parse_source] takes it for the name of a package. *)
Theorem repr_is_no_descriptor {FS : Type} `{!Platform FS}
    (w : World FS) (g : GitSource) (module_id : string) :
  from_uri (home w) (GitSource_repr g)
  = Raise (ValueError ("Git URI must start with 'git+': " ++ GitSource_repr g))
  ∧ _parse_source w (DStr (GitSource_repr g)) module_id
    = Ok (SPackage {| package_name := GitSource_repr g |}).
Proof.
  split.
  - apply from_uri_without_prefix. reflexivity.
  - reflexivity.
Qed.

(** X5.  [__repr__] shows the class, the url, the ref and, when one is set,
    the subdirectory. *)
Theorem repr_shows_fields (g : GitSource) :
  PyStr.startswith "GitSource(" (GitSource_repr g) = true
  ∧ occurs (url g ++ "@" ++ ref g) (GitSource_repr g)
  ∧ (∀ sub, subdirectory g = Some sub → sub ≠ "" →
            occurs ("@" ++ ref g ++ "#" ++ sub ++ ")") (GitSource_repr g)).
Proof.
  unfold GitSource_repr. split; [apply startswith_app |]. split.
  - eexists "GitSource(", _. rewrite !str_app_assoc. reflexivity.
  - intros sub -> Hne. destruct sub as [|c sub]; [done |]. cbn [PyStr.truthy].
    exists ("GitSource(" ++ url g), "". rewrite !str_app_assoc, !str_app_nil_r.
    reflexivity.
Qed.


(** X7.  A structured record is read through its fields [type], [url],
    [ref], [subdirectory], [path] and [name] only: any other field changes
    nothing. *)
Theorem record_other_fields_ignored {FS : Type} `{!Platform FS}
    (w : World FS) (d : gmap string string) (k v module_id : string) :
  k ∉ ["type"; "url"; "ref"; "subdirectory"; "path"; "name"] →
  _parse_source w (DDict (<[k := v]> d)) module_id = _parse_source w (DDict d) module_id.
Proof.
  intros Hk.
  assert (∀ f, f ∈ ["type"; "url"; "ref"; "subdirectory"; "path"; "name"] →
               <[k := v]> d !! f = d !! f) as Hf.
  { intros f Hin. apply lookup_insert_ne. by intros ->. }
  unfold _parse_source.
  rewrite (Hf "type"), (Hf "url"), (Hf "ref"), (Hf "subdirectory"), (Hf "path"),
    (Hf "name") by set_solver.
  reflexivity.
Qed.

Lemma record_other_fields_ignored_witness :
  _parse_source Demo.plain
    (DDict (<["comment" := "pinned"]> {[ "type" := "package"; "name" := "foo" ]})) "foo"
  = _parse_source Demo.plain (DDict {[ "type" := "package"; "name" := "foo" ]}) "foo".
Proof.
  apply (record_other_fields_ignored Demo.plain _ "comment" "pinned" "foo").
  intros H. repeat (apply elem_of_cons in H as [H|H]; [discriminate H |]).
  by apply elem_of_nil in H.
Defined.

(** X8.  The two forms of a git descriptor agree: the record with [url],
    [ref] and [subdirectory] and the string ["git+url@ref#subdirectory=..."]
    parse to the same source, when the ref holds no ["@"], url and ref hold
    no ["#subdirectory="] and the subdirectory is not the empty string. *)
Theorem git_record_and_string_agree {FS : Type} `{!Platform FS}
    (w : World FS) (u r : string) (sub : option string) (module_id : string) :
  ¬ occurs "#subdirectory=" (u ++ "@" ++ r) →
  ¬ occurs "@" r →
  sub ≠ Some "" →
  _parse_source w (DDict (git_record u r sub)) module_id
  = Ok (SGit (GitSource_init (home w) u r sub))
  ∧ _parse_source w (DStr (git_url (GitSource_init (home w) u r sub))) module_id
    = Ok (SGit (GitSource_init (home w) u r sub)).
Proof.
  intros Hsep Hat Hsub. split.
  - unfold _parse_source, git_record.
    assert (∀ d : gmap string string,
              <["type" := "git"]> (<["url" := u]> (<["ref" := r]> d)) !! "subdirectory"
              = d !! "subdirectory") as Hd.
    { intros d. by rewrite !lookup_insert_ne. }
    rewrite lookup_insert_eq. rewrite bool_decide_eq_true_2 by done.
    rewrite lookup_insert_ne, lookup_insert_eq by done.
    rewrite lookup_insert_ne, lookup_insert_ne, lookup_insert_eq by done.
    rewrite Hd. cbn [default]. do 3 f_equal.
    destruct sub; [apply lookup_singleton_eq | apply lookup_empty].
  - rewrite parse_source_str.
    assert (PyStr.startswith "git+" (git_url (GitSource_init (home w) u r sub)) = true)
      as ->.
    { apply startswith_spec. unfold git_url. cbn [url ref subdirectory GitSource_init].
      destruct sub as [t|]; [destruct (PyStr.truthy t) |];
        eexists; rewrite ?str_app_assoc; reflexivity. }
    by rewrite from_uri_git_url.
Qed.

Lemma git_record_and_string_agree_witness :
  _parse_source Demo.plain (DDict (git_record "https://h/o/r" "v1" (Some "p"))) "foo"
  = Ok (SGit Demo.repo)
  ∧ _parse_source Demo.plain (DStr "git+https://h/o/r@v1#subdirectory=p") "foo"
    = Ok (SGit Demo.repo).
Proof.
  apply (git_record_and_string_agree Demo.plain "https://h/o/r" "v1" (Some "p") "foo").
  - apply not_occurs_by_contains. vm_compute. reflexivity.
  - apply not_occurs_by_contains. vm_compute. reflexivity.
  - discriminate.
Defined.

(** * More about the resolver *)

Section MoreResolver.
Context {FS : Type} `{!Platform FS}.
Implicit Types (r : Resolver) (w : World FS) (module_id : string)
  (profile_hint : option descriptor).

(** The errors that [_parse_source] raises itself come from a structured
    record: a required field is missing, or the type is unknown. *)
Lemma parse_source_raises w d module_id e :
  _parse_source w d module_id = Raise e →
  ∃ rec, d = DDict rec
    ∧ ((e = KeyError "url" ∧ rec !! "type" = Some "git" ∧ rec !! "url" = None)
       ∨ (e = KeyError "path" ∧ rec !! "type" = Some "file" ∧ rec !! "path" = None)
       ∨ (e = KeyError "name" ∧ rec !! "type" = Some "package" ∧ rec !! "name" = None)
       ∨ (e = ValueError ("Invalid source type '" ++ fmt_opt (rec !! "type")
                          ++ "' for module '" ++ module_id ++ "'")
          ∧ rec !! "type" ≠ Some "git" ∧ rec !! "type" ≠ Some "file"
          ∧ rec !! "type" ≠ Some "package")).
Proof.
  destruct d as [s|rec].
  - rewrite parse_source_str.
    destruct (PyStr.startswith "git+" s) eqn:Hgit.
    + apply startswith_spec in Hgit as [rest ->].
      destruct (from_uri_cases (home w) rest) as (body & u & r & sub & Hg & _).
      by rewrite Hg.
    + by destruct (_ || _).
  - intros He. exists rec. split; [done |]. unfold _parse_source in He.
    repeat case_bool_decide; repeat case_match; naive_solver.
Qed.

End MoreResolver.

Section MoreResolver2.
Context {FS : Type} `{!Platform FS}.
Implicit Types (r : Resolver) (w : World FS) (module_id : string)
  (profile_hint : option descriptor).

(** An outcome of the ordered search is the outcome of the layer it names. *)
Lemma first_outcome_Some ls r w module_id profile_hint l o :
  first_outcome ls r w module_id profile_hint = Some (l, o) →
  layer_attempt l r w module_id profile_hint = Some o.
Proof.
  induction ls as [|l' ls IH]; cbn [first_outcome]; [done |].
  destruct (layer_attempt l' r w module_id profile_hint) as [o'|] eqn:Hl'; [|done].
  by intros [= <- <-].
Qed.

Lemma resolve_with_layer_Ok r w module_id profile_hint src name :
  resolve_with_layer r w module_id profile_hint = Ok (src, name) →
  ∃ l, name = layer_name l
       ∧ layer_attempt l r w module_id profile_hint = Some (Ok src).
Proof.
  rewrite resolve_with_layer_first_outcome.
  destruct (first_outcome layers r w module_id profile_hint) as [[l o]|] eqn:Hf;
    cbn [outcome_result]; [|done].
  destruct o as [src'|e]; cbn [tagged]; [|done].
  intros [= <- <-]. exists l. split; [done |]. by eapply first_outcome_Some.
Qed.

(** The search finds nothing only when no layer applies. *)
Lemma first_outcome_none_inv r w module_id profile_hint :
  first_outcome layers r w module_id profile_hint = None →
  ∀ l, layer_attempt l r w module_id profile_hint = None.
Proof.
  unfold layers. cbn [first_outcome]. intros Hf l.
  destruct (layer_attempt Env r w module_id profile_hint) eqn:H1; [done |].
  destruct (layer_attempt Workspace r w module_id profile_hint) eqn:H2; [done |].
  destruct (layer_attempt Settings r w module_id profile_hint) eqn:H3; [done |].
  destruct (layer_attempt Collection r w module_id profile_hint) eqn:H4; [done |].
  destruct (layer_attempt Profile r w module_id profile_hint) eqn:H5; [done |].
  destruct (layer_attempt Package r w module_id profile_hint) eqn:H6; [done |].
  by destruct l.
Qed.

(** An error of [resolve_with_layer] is the terminal failure, with no layer
    applying, or the error of the descriptor of the settings or of the
    profile hint. *)
Lemma resolve_with_layer_raises r w module_id profile_hint e :
  resolve_with_layer r w module_id profile_hint = Raise e →
  (e = ModuleResolutionError
         (not_found_message r module_id ("amplifier-module-" ++ module_id))
   ∧ ∀ l, layer_attempt l r w module_id profile_hint = None)
  ∨ ∃ d, ((∃ sources, settings_provider r = Some sources
                      ∧ sources !! module_id = Some d)
          ∨ profile_hint = Some d
          ∨ ∃ v, environ w !! env_key module_id = Some v ∧ d = DStr v)
         ∧ _parse_source w d module_id = Raise e.
Proof.
  rewrite resolve_with_layer_first_outcome.
  destruct (first_outcome layers r w module_id profile_hint) as [[l o]|] eqn:Hf;
    cbn [outcome_result].
  - destruct o as [src|e']; cbn [tagged]; [done |].
    intros [= <-]. right. apply first_outcome_Some in Hf.
    destruct l; cbn [layer_attempt] in Hf.
    + destruct (environ w !! env_key module_id) as [v|] eqn:Hv; [|done].
      destruct (PyStr.truthy v); [|done]. injection Hf as Hf.
      exists (DStr v). split; [|done]. right. right. by exists v.
    + destruct (workspace_dir r) as [dir|]; [|done].
      by destruct (workspace_usable w (dir </> module_id)).
    + destruct (settings_provider r) as [sources|]; [|done].
      destruct (sources !! module_id) as [d|] eqn:Hd; [|done]. injection Hf as Hf.
      exists d. split; [|done]. left. by exists sources.
    + destruct (collection_provider r) as [modules|]; [|done].
      by destruct (modules !! module_id).
    + destruct profile_hint as [h|]; [|done].
      destruct (descriptor_truthy h); [|done]. injection Hf as Hf.
      exists h. split; [|done]. right. by left.
    + destruct (distribution w module_id); [done |].
      by destruct (distribution w ("amplifier-module-" ++ module_id)).
  - intros [= <-]. left. split; [done |]. by apply first_outcome_none_inv.
Qed.

End MoreResolver2.


(** X10.  What [resolve_with_layer] returns is the outcome of the layer it
    names: from the workspace and from a collection always a file source of
    the directory found, without any parsing; from the package layer always
    a package that is installed, the module id itself when that is
    installed and the conventional name otherwise. *)
Theorem resolved_source_by_layer {FS : Type} `{!Platform FS}
    (r : Resolver) (w : World FS) (module_id : string)
    (profile_hint : option descriptor) (src : Source) (name : string) :
  resolve_with_layer r w module_id profile_hint = Ok (src, name) →
  name ∈ ["env"; "workspace"; "settings"; "collection"; "profile"; "package"]
  ∧ (name = "workspace" →
     ∃ dir, workspace_dir r = Some dir
            ∧ src = SFile (FileSource_of_path (dir </> module_id) (w_fs w)))
  ∧ (name = "collection" →
     ∃ modules p, collection_provider r = Some modules ∧ modules !! module_id = Some p
                  ∧ src = SFile (FileSource_of_path (PyPath.of_str p) (w_fs w)))
  ∧ (name = "package" →
     ∃ n, src = SPackage {| package_name := n |}
          ∧ distribution w n = true
          ∧ (n = module_id
             ∨ (distribution w module_id = false ∧ n = "amplifier-module-" ++ module_id))).
Proof.
  intros Hres. destruct (resolve_with_layer_Ok _ _ _ _ _ _ Hres) as (l & -> & Hl).
  split; [destruct l; set_solver |].
  split; [|split]; intros Hname; destruct l; try discriminate Hname;
    cbn [layer_attempt] in Hl.
  - destruct (workspace_dir r) as [dir|]; [|done].
    destruct (workspace_usable w (dir </> module_id)); [|done].
    injection Hl as <-. by exists dir.
  - destruct (collection_provider r) as [modules|]; [|done].
    destruct (modules !! module_id) as [p|] eqn:Hp; [|done].
    injection Hl as <-. by exists modules, p.
  - destruct (distribution w module_id) eqn:Hexact.
    + injection Hl as <-. exists module_id. auto.
    + destruct (distribution w ("amplifier-module-" ++ module_id)) eqn:Hconv; [|done].
      injection Hl as <-. exists ("amplifier-module-" ++ module_id). auto.
Qed.

(** With an empty environment value and only the conventional package
    installed, the package layer answers with the conventional name. *)
Lemma resolved_source_by_layer_witness :
  ∃ n, resolve_with_layer Demo.bare Demo.blank_env "foo-bar" None
       = Ok (SPackage {| package_name := n |}, "package")
       ∧ distribution Demo.blank_env n = true
       ∧ n = "amplifier-module-foo-bar".
Proof.
  destruct (resolved_source_by_layer Demo.bare Demo.blank_env "foo-bar" None
              (SPackage {| package_name := "amplifier-module-foo-bar" |}) "package")
    as (_ & _ & _ & Hpackage).
  - vm_compute. reflexivity.
  - destruct (Hpackage eq_refl) as (n & Hsrc & Hinstalled & _).
    exists n. injection Hsrc as <-. split; [vm_compute; reflexivity |]. by split.
Defined.

(** X11.  Where the errors of [resolve_with_layer] come from.  A
    [ModuleResolutionError] is the "not found" error of the package layer,
    and then no layer applied.  A [KeyError] names [url], [path] or [name]
    and comes from a structured record, held by the settings for the module
    or passed as profile hint, of type [git], [file] or [package] that lacks
    this field.  A [ValueError] that begins with [Invalid source type] comes
    from such a record of another type, or of none.  The prefix error of
    [from_uri] is never seen. *)
Theorem resolve_with_layer_error_origins {FS : Type} `{!Platform FS}
    (r : Resolver) (w : World FS) (module_id : string)
    (profile_hint : option descriptor) (e : exn) :
  resolve_with_layer r w module_id profile_hint = Raise e →
  (∀ msg, e = ModuleResolutionError msg →
     msg = not_found_message r module_id ("amplifier-module-" ++ module_id)
     ∧ ∀ l, layer_attempt l r w module_id profile_hint = None)
  ∧ (∀ k, e = KeyError k →
     ∃ rec,
       ((∃ sources, settings_provider r = Some sources
                    ∧ sources !! module_id = Some (DDict rec))
        ∨ profile_hint = Some (DDict rec))
       ∧ rec !! k = None
       ∧ ((k = "url" ∧ rec !! "type" = Some "git")
          ∨ (k = "path" ∧ rec !! "type" = Some "file")
          ∨ (k = "name" ∧ rec !! "type" = Some "package")))
  ∧ (∀ msg, e = ValueError msg →
     PyStr.startswith "Invalid source type '" msg = true →
     ∃ rec,
       ((∃ sources, settings_provider r = Some sources
                    ∧ sources !! module_id = Some (DDict rec))
        ∨ profile_hint = Some (DDict rec))
       ∧ rec !! "type" ≠ Some "git" ∧ rec !! "type" ≠ Some "file"
       ∧ rec !! "type" ≠ Some "package"
       ∧ msg = "Invalid source type '" ++ fmt_opt (rec !! "type")
               ++ "' for module '" ++ module_id ++ "'")
  ∧ ∀ s, e ≠ ValueError ("Git URI must start with 'git+': " ++ s).
Proof.
  intros Hres.
  destruct (resolve_with_layer_raises _ _ _ _ _ Hres) as [[-> Hnone]|(d & Hd & Hp)].
  { split; [by intros msg [= <-] |]. split; [done |]. by split. }
  destruct (parse_source_raises w d module_id e Hp) as (rec & -> & He).
  assert ((∃ sources, settings_provider r = Some sources
                      ∧ sources !! module_id = Some (DDict rec))
          ∨ profile_hint = Some (DDict rec)) as Hfrom.
  { destruct Hd as [?|[?|(v & _ & ?)]]; [by left | by right | done]. }
  split; [|split; [|split]].
  - intros msg ->. by destruct He as [(? & _)|[(? & _)|[(? & _)|(? & _)]]].
  - intros k ->. exists rec. split; [done |].
    destruct He as [(Hk & Ht & Hf)|[(Hk & Ht & Hf)|[(Hk & Ht & Hf)|(Hk & _)]]];
      [injection Hk as ->; auto 10 .. | done].
  - intros msg -> _. exists rec. split; [done |].
    destruct He as [(? & _)|[(? & _)|[(? & _)|(Hk & ? & ? & ?)]]]; [done.. |].
    by injection Hk as ->.
  - intros s ->. by destruct He as [(? & _)|[(? & _)|[(? & _)|(? & _)]]].
Qed.

(** The error of the settings with a record of unknown type comes from
    that record. *)
Lemma resolve_with_layer_error_origins_witness :
  ∃ rec sources, settings_provider Demo.broken = Some sources
                 ∧ sources !! "foo" = Some (DDict rec)
                 ∧ rec !! "type" = Some "svn".
Proof.
  destruct (resolve_with_layer_error_origins Demo.broken Demo.plain "foo"
              (Some (DStr "some-package"))
              (ValueError "Invalid source type 'svn' for module 'foo'"))
    as (_ & _ & Hvalue & _).
  - vm_compute. reflexivity.
  - destruct (Hvalue _ eq_refl) as (rec & [(sources & Hs & Hrec)|Hhint] & _).
    + vm_compute. reflexivity.
    + exists rec, sources. split; [exact Hs |]. split; [exact Hrec |].
      injection Hs as <-. vm_compute in Hrec. injection Hrec as <-.
      vm_compute. reflexivity.
    + discriminate Hhint.
Defined.

(** X12.  In the settings a value counts by its presence: an entry that is
    the empty string still decides the resolution, as a package with the
    empty name, where an empty environment value or profile hint would be
    passed over. *)
Theorem settings_empty_value_applies {FS : Type} `{!Platform FS}
    (r : Resolver) (w : World FS) (module_id : string)
    (profile_hint : option descriptor) (sources : gmap string descriptor) :
  earlier_inapplicable Settings r w module_id profile_hint →
  settings_provider r = Some sources →
  sources !! module_id = Some (DStr "") →
  resolve_with_layer r w module_id profile_hint
  = Ok (SPackage {| package_name := "" |}, "settings")
  ∧ layer_attempt Profile r w module_id (Some (DStr "")) = None.
Proof.
  intros Hearlier Hs Hid. split; [|reflexivity].
  rewrite resolve_with_layer_first_outcome.
  rewrite (first_outcome_earlier Settings r w module_id profile_hint
             (Ok (SPackage {| package_name := "" |}))); [done | done |].
  cbn [layer_attempt]. by rewrite Hs, Hid.
Qed.

Lemma settings_empty_value_applies_witness :
  resolve_with_layer
    {| workspace_dir := None; settings_provider := Some {[ "foo" := DStr "" ]};
       collection_provider := None |}
    Demo.plain "foo" (Some (DStr "some-package"))
  = Ok (SPackage {| package_name := "" |}, "settings").
Proof.
  apply (settings_empty_value_applies _ Demo.plain "foo" (Some (DStr "some-package"))
           {[ "foo" := DStr "" ]}).
  - intros l' Hlt. destruct l'; cbn [layer_index] in Hlt; try lia; vm_compute; reflexivity.
  - reflexivity.
  - vm_compute. reflexivity.
Defined.

(** X13.  A non-empty environment value decides the resolution: the result
    is that of parsing the value, a source at layer ["env"] or the error of
    the parse, and it is the same for every configuration of the resolver
    and every profile hint. *)
Theorem env_value_decides_resolution {FS : Type} `{!Platform FS}
    (r r' : Resolver) (w : World FS) (module_id : string)
    (profile_hint profile_hint' : option descriptor) (v : string) :
  environ w !! env_key module_id = Some v →
  v ≠ "" →
  resolve_with_layer r w module_id profile_hint
  = tagged id "env" (_parse_source w (DStr v) module_id)
  ∧ resolve_with_layer r w module_id profile_hint
    = resolve_with_layer r' w module_id profile_hint'
  ∧ ∀ src name, resolve_with_layer r w module_id profile_hint = Ok (src, name) →
      name = "env" ∧ _parse_source w (DStr v) module_id = Ok src.
Proof.
  intros Henv Hv.
  assert (∀ r0 h, resolve_with_layer r0 w module_id h
                  = tagged id "env" (_parse_source w (DStr v) module_id)) as Hres.
  { intros r0 h. unfold resolve_with_layer, getenv, when_truthy. rewrite Henv.
    by destruct v. }
  split; [apply Hres |]. split; [by rewrite !Hres |].
  intros src name. rewrite Hres.
  destruct (_parse_source w (DStr v) module_id) as [src'|e]; cbn [tagged]; [|done].
  by intros [= <- <-].
Qed.

Lemma env_value_decides_resolution_witness :
  resolve_with_layer Demo.broken
    (Demo.world {[ "AMPLIFIER_MODULE_FOO" := "git+https://h/o/r@v1#subdirectory=p" ]} [] [])
    "foo" None
  = resolve_with_layer Demo.bare
      (Demo.world {[ "AMPLIFIER_MODULE_FOO" := "git+https://h/o/r@v1#subdirectory=p" ]} [] [])
      "foo" (Some (DStr "some-package")).
Proof.
  apply (env_value_decides_resolution Demo.broken Demo.bare _ "foo" None
           (Some (DStr "some-package")) "git+https://h/o/r@v1#subdirectory=p").
  - vm_compute. reflexivity.
  - discriminate.
Defined.

(** * The environment variable of a module *)

(** X14.  The name of the environment variable of a module begins with
    [AMPLIFIER_MODULE_], holds no dash, and is as long as the prefix and the
    upper-cased module id together. *)
Theorem env_key_shape {FS : Type} `{!Platform FS} (module_id : string) :
  PyStr.startswith "AMPLIFIER_MODULE_" (env_key module_id) = true
  ∧ ¬ occurs "-" (env_key module_id)
  ∧ String.length (env_key module_id) = (17 + String.length (str_upper module_id))%nat.
Proof.
  unfold env_key.
  destruct (replace_char_spec "-" "_" (str_upper module_id)) as [Hno Hlen]; [done |].
  split; [apply startswith_app |]. split.
  - intros Hocc.
    assert (∀ p, ¬ occurs "-" p → ¬ occurs "-" (p ++ PyStr.replace "-" "_" (str_upper module_id)))
      as Happ.
    { induction p as [|c p IH]; intros Hp; [done |].
      intros [->|Hin]%occurs_char_cons.
      - apply Hp. by exists "", p.
      - apply IH; [|done]. intros (x & y & ->). apply Hp. by exists (String c x), y. }
    apply (Happ "AMPLIFIER_MODULE_"); [|done].
    by apply not_occurs_by_contains.
  - rewrite str_length_app, Hlen. reflexivity.
Qed.

(** * More about [GitSource.resolve] and [install_to] *)

Section MoreGit.
Context {FS : Type} `{!Platform FS}.
Implicit Types (g : GitSource) (m : machine FS).

(** [resolve] after a cache miss, by the outcome of the download. *)
Lemma resolve_miss g m :
  path_exists (cache_path g) (m_fs m) && _is_valid_cache (cache_path g) (m_fs m) = false →
  GitSource_resolve g m
  = match _download_via_uv g (cache_path g) m with
    | (Ok _, m') =>
        if path_exists (final_path g) (m_fs m')
        then (Ok (final_path g), m')
        else (Raise (InstallError ("Subdirectory not found after download: "
                                   ++ fmt_opt (subdirectory g))), m')
    | (Raise (CalledProcessError e), m') =>
        (Raise (InstallError ("Failed to download " ++ url g ++ "@" ++ ref g
                              ++ ": " ++ e)), m')
    | (Raise e, m') => (Raise e, m')
    end.
Proof.
  intros Hmiss.
  unfold GitSource_resolve, mbind, M_bind, bind, ask, except_CalledProcessError, raise, ret.
  rewrite Hmiss.
  destruct (_download_via_uv g (cache_path g) m) as [[[]|e] m1]; simpl.
  - by destruct (path_exists (final_path g) (m_fs m1)).
  - by destruct e.
Qed.

(** [_download_via_uv], by the outcomes of [mkdir] and of [uv]. *)
Lemma download_via_uv_eq g target m :
  _download_via_uv g target m
  = match path_mkdir_parents (PyPath.parent target) (m_fs m) with
    | (Ok _, fs1) =>
        let '(x, fs2) :=
          subprocess_run ["uv"; "pip"; "install"; "--target"; PyPath.to_str target;
                          git_url g] fs1 in
        (x, mkMachine fs2 (m_fetches m ++ [target]))
    | (Raise e, fs1) => (Raise e, mkMachine fs1 (m_fetches m ++ [target]))
    end.
Proof.
  unfold _download_via_uv, mbind, M_bind, bind, note_fetch, sys. simpl.
  destruct (path_mkdir_parents _ _) as [[[]|e] fs1]; simpl; [|done].
  by destruct (subprocess_run _ _).
Qed.

Lemma install_to_eq g target m :
  install_to g target m
  = match _download_via_uv g target m with
    | (Ok _, m') =>
        if path_exists target (m_fs m')
        then (Ok tt, m')
        else (Raise (InstallError ("Target directory not created after install: "
                                   ++ PyPath.to_str target)), m')
    | (Raise (CalledProcessError e), m') =>
        (Raise (InstallError ("Failed to install " ++ url g ++ "@" ++ ref g ++ " to "
                              ++ PyPath.to_str target ++ ": " ++ e)), m')
    | (Raise e, m') => (Raise e, m')
    end.
Proof.
  unfold install_to, mbind, M_bind, bind, ask, except_CalledProcessError, raise, ret.
  destruct (_download_via_uv g target m) as [[[]|e] m1]; simpl.
  - by destruct (path_exists target (m_fs m1)).
  - by destruct e.
Qed.

End MoreGit.

(** X15.  Neither [resolve] nor [install_to] lets a [CalledProcessError]
    out: whatever the platform does, a failed command surfaces as an
    [InstallError]. *)
Theorem called_process_error_is_wrapped {FS : Type} `{!Platform FS}
    (g : GitSource) (target : Path) (m : machine FS) (msg : string) :
  (GitSource_resolve g m).1 ≠ Raise (CalledProcessError msg)
  ∧ (install_to g target m).1 ≠ Raise (CalledProcessError msg).
Proof.
  split.
  - destruct (path_exists (cache_path g) (m_fs m)
              && _is_valid_cache (cache_path g) (m_fs m)) eqn:Hhit.
    + by rewrite (resolve_hit g m Hhit).
    + rewrite (resolve_miss g m Hhit).
      destruct (_download_via_uv g (cache_path g) m) as [[[]|e] m1].
      * by destruct (path_exists (final_path g) (m_fs m1)).
      * by destruct e.
  - rewrite install_to_eq.
    destruct (_download_via_uv g target m) as [[[]|e] m1].
    + by destruct (path_exists target (m_fs m1)).
    + by destruct e.
Qed.

(** X16.  A path that [resolve] returns after a cache miss exists when it
    is returned: it is the final path, checked after exactly one fetch into
    the cache path. *)
Theorem resolve_after_fetch_path_exists {FS : Type} `{!Platform FS}
    (g : GitSource) (m m' : machine FS) (p : Path) :
  path_exists (cache_path g) (m_fs m) && _is_valid_cache (cache_path g) (m_fs m) = false →
  GitSource_resolve g m = (Ok p, m') →
  p = final_path g
  ∧ path_exists p (m_fs m') = true
  ∧ m_fetches m' = (m_fetches m ++ [cache_path g])%list
  ∧ _download_via_uv g (cache_path g) m = (Ok tt, m').
Proof.
  intros Hmiss Hres. pose proof (download_fetches g (cache_path g) m) as Hlog.
  rewrite (resolve_miss g m Hmiss) in Hres.
  destruct (_download_via_uv g (cache_path g) m) as [[[]|e] m1]; simpl in Hlog.
  - destruct (path_exists (final_path g) (m_fs m1)) eqn:Hex; [|done].
    injection Hres as <- <-. done.
  - by destruct e.
Qed.

Lemma resolve_after_fetch_path_exists_witness :
  path_exists (final_path (GitSource_init Demo.home_dir "https://h/o/r" "v1" None))
    (m_fs (GitSource_resolve (GitSource_init Demo.home_dir "https://h/o/r" "v1" None)
             (mkMachine [] [])).2)
  = true.
Proof.
  apply (resolve_after_fetch_path_exists
           (GitSource_init Demo.home_dir "https://h/o/r" "v1" None)
           (mkMachine [] [])
           (GitSource_resolve (GitSource_init Demo.home_dir "https://h/o/r" "v1" None)
              (mkMachine [] [])).2).
  - vm_compute. reflexivity.
  - vm_compute. reflexivity.
Defined.

(** X17.  When [uv] fails, [resolve] reports an [InstallError] that names
    the url, the ref and the cause, and does not go on to the check of the
    final path.  The command that was run is [uv pip install --target]
    with the cache path and the [git+] URL of the source. *)
Theorem resolve_reports_failed_download {FS : Type} `{!Platform FS}
    (g : GitSource) (m : machine FS) (fs1 fs2 : FS) (cause : string) :
  path_exists (cache_path g) (m_fs m) && _is_valid_cache (cache_path g) (m_fs m) = false →
  path_mkdir_parents (PyPath.parent (cache_path g)) (m_fs m) = (Ok tt, fs1) →
  subprocess_run ["uv"; "pip"; "install"; "--target"; PyPath.to_str (cache_path g);
                  git_url g] fs1
  = (Raise (CalledProcessError cause), fs2) →
  GitSource_resolve g m
  = (Raise (InstallError ("Failed to download " ++ url g ++ "@" ++ ref g ++ ": " ++ cause)),
     mkMachine fs2 (m_fetches m ++ [cache_path g])).
Proof.
  intros Hmiss Hmk Hrun.
  by rewrite (resolve_miss g m Hmiss), download_via_uv_eq, Hmk, Hrun.
Qed.

Lemma resolve_reports_failed_download_witness :
  (GitSource_resolve DemoMore.unreachable (mkMachine [] [])).1
  = Raise (InstallError
             "Failed to download ssh://h/o/r@v1: uv returned non-zero exit status 1").
Proof.
  rewrite (resolve_reports_failed_download DemoMore.unreachable (mkMachine [] [])
             [(PyPath.parent (cache_path DemoMore.unreachable), false)]
             [(PyPath.parent (cache_path DemoMore.unreachable), false)]
             "uv returned non-zero exit status 1").
  - reflexivity.
  - vm_compute. reflexivity.
  - vm_compute. reflexivity.
  - vm_compute. reflexivity.
Defined.

(** X18.  When the directory for the cache entry cannot be made, the error
    of [mkdir] leaves [resolve] as it is, not wrapped, and [uv] is not run:
    the file system is the one [mkdir] left. *)
Theorem resolve_propagates_mkdir_error {FS : Type} `{!Platform FS}
    (g : GitSource) (m : machine FS) (fs1 : FS) (e : exn) :
  path_exists (cache_path g) (m_fs m) && _is_valid_cache (cache_path g) (m_fs m) = false →
  path_mkdir_parents (PyPath.parent (cache_path g)) (m_fs m) = (Raise e, fs1) →
  (∀ msg, e ≠ CalledProcessError msg) →
  GitSource_resolve g m = (Raise e, mkMachine fs1 (m_fetches m ++ [cache_path g])).
Proof.
  intros Hmiss Hmk He.
  rewrite (resolve_miss g m Hmiss), download_via_uv_eq, Hmk.
  destruct e; try done. by destruct (He msg).
Qed.

Lemma resolve_propagates_mkdir_error_witness :
  GitSource_resolve Demo.repo (mkMachine DemoMore.blocked [])
  = (Raise (OSError "File exists"), mkMachine DemoMore.blocked [cache_path Demo.repo]).
Proof.
  apply (resolve_propagates_mkdir_error Demo.repo (mkMachine DemoMore.blocked [])
           DemoMore.blocked (OSError "File exists")).
  - vm_compute. reflexivity.
  - vm_compute. reflexivity.
  - intros msg. discriminate.
Defined.

(** X19.  Sources with the same url, ref and cache root share one cache
    entry, whatever their subdirectories: once it holds a source file, each
    of them resolves without a fetch. *)
Theorem cache_entry_shared_across_subdirectories {FS : Type} `{!Platform FS}
    (g g' : GitSource) (m : machine FS) :
  url g' = url g → ref g' = ref g → cache_dir g' = cache_dir g →
  path_exists (cache_path g) (m_fs m) = true →
  _is_valid_cache (cache_path g) (m_fs m) = true →
  cache_path g' = cache_path g
  ∧ GitSource_resolve g m = (Ok (final_path g), m)
  ∧ GitSource_resolve g' m = (Ok (final_path g'), m).
Proof.
  intros Hu Hr Hc Hex Hvalid.
  assert (cache_path g' = cache_path g) as Hpath.
  { unfold cache_path, cache_key. by rewrite Hu, Hr, Hc. }
  split; [done |]. split; apply resolve_hit; rewrite ?Hpath; by rewrite Hex, Hvalid.
Qed.

Lemma cache_entry_shared_across_subdirectories_witness :
  GitSource_resolve (GitSource_init Demo.home_dir "https://h/o/r" "v1" (Some "other"))
    (mkMachine Demo.cached [])
  = (Ok (cache_path Demo.repo </> "other"), mkMachine Demo.cached []).
Proof.
  apply (cache_entry_shared_across_subdirectories Demo.repo
           (GitSource_init Demo.home_dir "https://h/o/r" "v1" (Some "other"))
           (mkMachine Demo.cached [])).
  - reflexivity.
  - reflexivity.
  - reflexivity.
  - vm_compute. reflexivity.
  - vm_compute. reflexivity.
Defined.

(** X20.  [install_to] does not look at the cache: it calls the fetch
    collaborator exactly once, for the target directory, in every state;
    when it returns, the target exists; and a target that is missing after
    the download is an [InstallError]. *)
Theorem install_to_fetches_into_target {FS : Type} `{!Platform FS}
    (g : GitSource) (target : Path) (m : machine FS) :
  m_fetches (install_to g target m).2 = (m_fetches m ++ [target])%list
  ∧ (∀ m', install_to g target m = (Ok tt, m') → path_exists target (m_fs m') = true)
  ∧ (∀ m', _download_via_uv g target m = (Ok tt, m') →
           path_exists target (m_fs m') = false →
           install_to g target m
           = (Raise (InstallError ("Target directory not created after install: "
                                   ++ PyPath.to_str target)), m')).
Proof.
  pose proof (download_fetches g target m) as Hlog. rewrite install_to_eq.
  destruct (_download_via_uv g target m) as [[[]|e] m1]; simpl in Hlog.
  - split; [by destruct (path_exists target (m_fs m1)) |]. split.
    + intros m'. destruct (path_exists target (m_fs m1)) eqn:Hex; [|done].
      by intros [= <-].
    + intros m' [= <-] Hex. by rewrite Hex.
  - split; [by destruct e |]. split; [by destruct e | done].
Qed.

(** * [FileSource.resolve] and [PackageSource.resolve] *)


(** X22.  A source that the workspace layer hands out passes the existence
    check and the source-file check of [FileSource.resolve], provided the
    workspace path is its own canonical form: [resolve] returns the path,
    or fails only because the path is not a directory. *)
Theorem workspace_source_resolves {FS : Type} `{!Platform FS} `{!DirPlatform FS}
    (r : Resolver) (w : World FS) (module_id : string) (dir : Path) (f : FileSource) :
  workspace_dir r = Some dir →
  path_resolve (dir </> module_id) (w_fs w) = dir </> module_id →
  _check_workspace r w module_id = Some f →
  path f = dir </> module_id
  ∧ FileSource_resolve f (w_fs w)
    = if path_is_dir (path f) (w_fs w) then Ok (path f)
      else Raise (ModuleResolutionError
                    ("Module path is not a directory: " ++ PyPath.to_str (path f))).
Proof.
  intros Hdir Hcanon Hcheck. rewrite (check_workspace_usable r w module_id dir Hdir) in Hcheck.
  unfold workspace_usable in Hcheck.
  destruct (path_exists (dir </> module_id) (w_fs w)) eqn:Hex; [|done].
  destruct (any_path (path_glob (dir </> module_id) "**/*.py" (w_fs w))) eqn:Hpy;
    [|by rewrite andb_false_r in Hcheck].
  destruct (negb _) in Hcheck; [|done]. injection Hcheck as <-.
  unfold FileSource_of_path, FileSource_resolve, _is_valid_module. cbn [path].
  rewrite Hcanon, Hex, Hpy. split; [done |].
  by destruct (path_is_dir (dir </> module_id) (w_fs w)).
Qed.

Lemma workspace_source_resolves_witness :
  FileSource_resolve {| path := PyPath.of_str "/ws/foo" |} DemoMore.workspace
  = Ok (PyPath.of_str "/ws/foo").
Proof.
  destruct (workspace_source_resolves DemoMore.in_workspace
              (Demo.world ∅ DemoMore.workspace []) "foo" (PyPath.of_str "/ws")
              {| path := PyPath.of_str "/ws/foo" |}) as [_ Hres].
  - reflexivity.
  - reflexivity.
  - vm_compute. reflexivity.
  - refine (eq_trans Hres _). vm_compute. reflexivity.
Defined.

(** X23.  [PackageSource.resolve] fails exactly when the distribution is
    not installed, with a message that names the install command.  An
    installed one resolves to the directory of its first file, and to the
    place of the distribution itself when no file is recorded. *)
Theorem package_source_resolve_outcomes
    (metadata : string → option Distribution) (p : PackageSource) :
  (metadata (package_name p) = None ↔
   PackageSource_resolve metadata p
   = Raise (ModuleResolutionError
              ("Package '" ++ package_name p
               ++ "' not installed. Install with: uv pip install " ++ package_name p)))
  ∧ (is_Some (metadata (package_name p)) ↔
     ∃ dir, PackageSource_resolve metadata p = Ok dir)
  ∧ (∀ dist, metadata (package_name p) = Some dist →
       PackageSource_resolve metadata p
       = Ok (match files dist with
             | Some (f :: _) => PyPath.parent (PyPath.of_str (locate_file dist f))
             | _ => PyPath.of_str (locate_file dist "")
             end)).
Proof.
  unfold PackageSource_resolve.
  destruct (metadata (package_name p)) as [dist|].
  - split; [split; [done |] |].
    + by destruct (files dist) as [[|f fs]|].
    + split.
      * split; [intros _ | by eexists]. destruct (files dist) as [[|f fs]|]; by eexists.
      * intros dist' [= <-]. by destruct (files dist) as [[|f fs]|].
  - split; [done |]. split; [|done]. split; [by intros [? ?] | by intros [? ?]].
Qed.

(** X24.  A package source that the package layer hands out resolves: with
    the same installed distributions, [PackageSource.resolve] does not
    answer "not installed". *)
Theorem package_layer_source_resolves {FS : Type} `{!Platform FS}
    (r : Resolver) (w : World FS) (module_id : string)
    (profile_hint : option descriptor) (p : PackageSource)
    (metadata : string → option Distribution) :
  (∀ n, distribution w n = true → is_Some (metadata n)) →
  resolve_with_layer r w module_id profile_hint = Ok (SPackage p, "package") →
  ∃ dir, PackageSource_resolve metadata p = Ok dir.
Proof.
  intros Hmeta Hres.
  destruct (resolve_with_layer_Ok _ _ _ _ _ _ Hres) as (l & Hname & Hl).
  destruct l; try discriminate Hname. cbn [layer_attempt] in Hl.
  assert (distribution w (package_name p) = true) as Hinst.
  { destruct (distribution w module_id) eqn:Hexact; [by injection Hl as <- |].
    destruct (distribution w ("amplifier-module-" ++ module_id)) eqn:Hconv; [|done].
    by injection Hl as <-. }
  destruct (Hmeta _ Hinst) as [dist Hdist].
  unfold PackageSource_resolve. rewrite Hdist.
  destruct (files dist) as [[|f fs]|]; by eexists.
Qed.

Lemma package_layer_source_resolves_witness :
  ∃ dir, PackageSource_resolve DemoMore.metadata {| package_name := "amplifier-module-foo" |}
         = Ok dir.
Proof.
  apply (package_layer_source_resolves Demo.bare DemoMore.installed "foo" None
           {| package_name := "amplifier-module-foo" |} DemoMore.metadata).
  - intros n Hn. apply (bool_decide_eq_true_1 (n ∈ ["amplifier-module-foo"])) in Hn.
    apply elem_of_cons in Hn as [->|Hn]; [by eexists | by apply elem_of_nil in Hn].
  - vm_compute. reflexivity.
Defined.
